(** * No Hooting Around: the background script's session pipeline

    A shallow embedding of [background.js]: the five module-level variables
    become one record, every listener and helper becomes a state-passing
    function that also returns the browser calls it made, and every callback
    the script hands to the browser ([setTimeout], [captureVisibleTab],
    [fetch], [chrome.tabs.get]) becomes an event the browser may deliver
    later, carrying the values its closure captured. *)

From Stdlib Require Import ZArith String Ascii List Bool Lia DecimalString Sorted.
From Stdlib Require Import DecimalFacts DecimalPos.
From stdpp Require Import base option list gmap strings.
Import ListNotations.

Local Open Scope string_scope.
Local Open Scope Z_scope.
Local Open Scope list_scope.

(** ** Data model *)

(** [currentSession = { tabId, url, sessionId: Date.now() }].  Chrome tab ids
    are integers; [Date.now()] is an integer number of milliseconds. *)
Record Session := mkSession {
  tabId : Z;
  url : string;
  sessionId : Z
}.

(** The module-level [let] variables of background.js, lines 3-7.
    [tabHistory] is a JS object used as a map from tab id to an array of
    URLs. *)
Record State := mkState {
  currentSession : option Session;
  lastCaptureTime : Z;
  isTracking : bool;
  currentGoal : string;
  tabHistory : gmap Z (list string)
}.

Definition initialState : State :=
  {| currentSession := None;
     lastCaptureTime := 0;
     isTracking := false;
     currentGoal := "";
     tabHistory := ∅ |}.

Definition set_currentSession (c : option Session) (s : State) : State :=
  {| currentSession := c;
     lastCaptureTime := lastCaptureTime s;
     isTracking := isTracking s;
     currentGoal := currentGoal s;
     tabHistory := tabHistory s |}.

Definition set_lastCaptureTime (t : Z) (s : State) : State :=
  {| currentSession := currentSession s;
     lastCaptureTime := t;
     isTracking := isTracking s;
     currentGoal := currentGoal s;
     tabHistory := tabHistory s |}.

Definition set_isTracking (b : bool) (s : State) : State :=
  {| currentSession := currentSession s;
     lastCaptureTime := lastCaptureTime s;
     isTracking := b;
     currentGoal := currentGoal s;
     tabHistory := tabHistory s |}.

Definition set_currentGoal (g : string) (s : State) : State :=
  {| currentSession := currentSession s;
     lastCaptureTime := lastCaptureTime s;
     isTracking := isTracking s;
     currentGoal := g;
     tabHistory := tabHistory s |}.

Definition set_tabHistory (h : gmap Z (list string)) (s : State) : State :=
  {| currentSession := currentSession s;
     lastCaptureTime := lastCaptureTime s;
     isTracking := isTracking s;
     currentGoal := currentGoal s;
     tabHistory := h |}.

(** *** Values that come back from the scoring server

    [response.json()] yields an arbitrary JSON value.  Numbers are kept to
    the integers (a fractional or exponent-form number would need the
    floating-point [Number::toString]); objects are opaque because their
    string conversion never depends on their fields. *)
#[warnings="-register-all"]
Inductive JsValue :=
| JsNull
| JsBool (b : bool)
| JsNumber (n : Z)
| JsString (s : string)
| JsArray (elems : list JsValue)
| JsObject.

(** What [fetch(...).then(r => r.json())] settles to: a parsed body, or a
    rejection (network failure, body that is not JSON). *)
Inductive FetchResult :=
| Resolved (data : JsValue)
| Rejected.

(** *** Callbacks and events *)

(** The three arrow functions given to [setTimeout], with the variables
    each one closes over. *)
Inductive Timer :=
| CaptureTimer (tid : Z) (u : string)          (* startSession, line 116 *)
| RedirectTimer (tid : Z) (previousUrl : string) (* handleOffTask, line 219 *)
| CloseTimer (tid : Z).                        (* handleOffTask, line 234 *)

Inductive Message :=
| StartTracking (goal : string)
| StopTracking
| GetTrackingState
| OtherMessage.

(** Everything the browser can deliver to the script.  The last five are
    callbacks of calls the script made earlier; their first arguments are
    the closure's captured variables, the rest is what the browser passes. *)
Inductive Event :=
| OnMessage (m : Message)
| OnUpdated (tid : Z) (status : option string) (tabUrl : option string)
| OnCreated (tid : Z) (tabUrl : option string)
| OnActivated (tid : Z)
| TabsGetDone (tid : Z) (tab : option (option string))
| FlyOwlDone (lastError : bool) (status : option string)
| TimerFired (t : Timer)
| CaptureDone (u : string) (sid : Z) (lastError : option string) (dataUrl : string)
| FetchDone (sid : Z) (r : FetchResult).

(** The [console.*] call sites, one constructor each. *)
Inductive LogMsg :=
| LogGoalSet (goal : string)
| LogTrackingStopped
| LogPageChanged (u : string)
| LogNewTab (tid : Z) (u : string)
| LogSwitched (tid : Z) (u : option string)
| LogHistoryUpdated (tid : Z) (h : list string)
| LogSkippingSession (u : option string)
| LogStartingSession (tid : Z) (u : string)
| LogEndingSession (tid : Z) (u : string)
| LogSessionEndedBeforeScreenshot
| WarnRateLimit
| ErrCapturing (msg : string)
| LogScreenshotTaken (u : string)
| LogScreenshotData (dataUrl : string)
| LogDisregardingCall
| LogDisregardingResult
| LogScore (score : option Z)
| ErrNoValidScore
| ErrCallingApi
| LogOffTask (tid : Z)
| LogRedirecting (u : string)
| LogClosingTab (tid : Z)
| ErrFlyOwl
| LogOwl (status : option string).

Inductive Response :=
| RespStarted (goal : string)
| RespStopped
| RespState (tracking : bool) (goal : string).

(** Calls into the browser, in the order the script makes them. *)
Inductive Effect :=
| Console (m : LogMsg)
| SendResponse (r : Response)
| SendFlyOwl (tid : Z)
| TabsGet (tid : Z)
| SetTimeout (t : Timer) (delay : Z)
| CaptureVisibleTab (u : string) (sid : Z)
| Fetch (base64Screenshot goal : string) (sid : Z)
| ExecuteScript (tid : Z) (gifSrc : string)
| TabsUpdate (tid : Z) (u : string)
| TabsRemove (tid : Z).

(** ** Running a function body: state in, state and browser calls out *)

Definition Handler := State -> State * list Effect.

Definition skip : Handler := fun s => (s, []).

Definition emit (e : Effect) : Handler := fun s => (s, [e]).

Definition andThen (h1 h2 : Handler) : Handler := fun s =>
  let r1 := h1 s in
  let r2 := h2 (fst r1) in
  (fst r2, snd r1 ++ snd r2).

Declare Scope handler_scope.
Delimit Scope handler_scope with H.
Bind Scope handler_scope with Handler.
Notation "h1 ;; h2" := (andThen h1 h2)
  (at level 100, h2 at level 200, right associativity) : handler_scope.
Local Open Scope handler_scope.

(** ** Tab History Ledger *)

(** [!url || url.startsWith("chrome://") || url.startsWith("about:")], where
    [None] stands for [undefined]/[null]. *)
Definition ignoredUrl (u : option string) : bool :=
  match u with
  | None => true
  | Some v =>
      String.eqb v "" || String.prefix "chrome://" v || String.prefix "about:" v
  end.

(** background.js lines 83-99. *)
Definition updateTabHistory (tid : Z) (u : option string) : Handler := fun s =>
  match u with
  | None => (s, [])
  | Some v =>
      if ignoredUrl u then (s, [])
      else
        let th1 :=
          match tabHistory s !! tid with
          | None => <[tid := []]> (tabHistory s)
          | Some _ => tabHistory s
          end in
        let history := default [] (th1 !! tid) in
        if Nat.eqb (length history) 0
           || match last history with
              | Some l => negb (String.eqb l v)
              | None => true
              end
        then (set_tabHistory (<[tid := history ++ [v]]> th1) s,
              [Console (LogHistoryUpdated tid (history ++ [v]))])
        else (set_tabHistory th1 s, [])
  end.

(** ** Session Manager *)

(** background.js lines 126-131. *)
Definition endSession : Handler := fun s =>
  match currentSession s with
  | Some c =>
      (set_currentSession None s,
       [Console (LogEndingSession (tabId c) (url c))])
  | None => (s, [])
  end.

(** background.js lines 102-123.  [now] is the value [Date.now()] returns
    during this call; the arrow function passed to [setTimeout] is recorded
    as [CaptureTimer tid v], the two variables it closes over. *)
Definition startSession (now tid : Z) (u : option string) : Handler :=
  endSession ;;
  fun s =>
    match u with
    | None => (s, [Console (LogSkippingSession u)])
    | Some v =>
        if ignoredUrl u then (s, [Console (LogSkippingSession u)])
        else
          (set_currentSession
             (Some {| tabId := tid; url := v; sessionId := now |}) s,
           [Console (LogStartingSession tid v);
            SetTimeout (CaptureTimer tid v) 2000])
    end.

(** ** Capture Gate *)

(** background.js lines 134-142; the callback given to [captureVisibleTab]
    is [captureDone] below. *)
Definition takeScreenshot (now : Z) (u : string) (sid : Z) : Handler := fun s =>
  if now - lastCaptureTime s <? 1000
  then (s, [Console WarnRateLimit])
  else (set_lastCaptureTime now s, [CaptureVisibleTab u sid]).

(** The arrow function of lines 116-122, run when the timer expires. *)
Definition captureTimerFired (now tid : Z) (u : string) : Handler := fun s =>
  match currentSession s with
  | Some c =>
      if tabId c =? tid
      then takeScreenshot now u (sessionId c) s
      else (s, [Console LogSessionEndedBeforeScreenshot])
  | None => (s, [Console LogSessionEndedBeforeScreenshot])
  end.

(** ** Classification Client *)

(** [!currentSession || currentSession.sessionId !== sessionId], negated. *)
Definition sessionIs (sid : Z) (s : State) : bool :=
  match currentSession s with
  | Some c => sessionId c =? sid
  | None => false
  end.

(** background.js lines 160-176: the check and the request. *)
Definition analyzeScreenshotWithOpenAI
    (base64Screenshot goal : string) (sid : Z) : Handler := fun s =>
  if negb (sessionIs sid s)
  then (s, [Console LogDisregardingCall])
  else (s, [Fetch base64Screenshot goal sid]).

(** The callback of [captureVisibleTab], lines 143-154. *)
Definition captureDone
    (u : string) (sid : Z) (lastError : option string) (dataUrl : string)
    : Handler :=
  match lastError with
  | Some msg => emit (Console (ErrCapturing msg))
  | None =>
      emit (Console (LogScreenshotTaken u)) ;;
      emit (Console (LogScreenshotData (String.substring 0 100 dataUrl +:+ "..."))) ;;
      fun s => analyzeScreenshotWithOpenAI dataUrl (currentGoal s) sid s
  end.

(** *** [parseInt(data, 10)] *)

(** JS truthiness, the test of [if (data)]. *)
Definition truthy (v : JsValue) : bool :=
  match v with
  | JsNull => false
  | JsBool b => b
  | JsNumber n => negb (n =? 0)
  | JsString s => negb (String.eqb s "")
  | JsArray _ => true
  | JsObject => true
  end.

Definition decimalOfZ (n : Z) : string := NilZero.string_of_int (Z.to_int n).

(** [ToString]: what [parseInt] first does to its argument.  An array is
    its elements joined by commas, [null] elements printing as nothing. *)
Fixpoint toJsString (v : JsValue) : string :=
  match v with
  | JsNull => "null"
  | JsBool b => if b then "true" else "false"
  | JsNumber n => decimalOfZ n
  | JsString s => s
  | JsObject => "[object Object]"
  | JsArray elems =>
      (fix join (l : list JsValue) : string :=
         match l with
         | [] => ""
         | x :: l' =>
             let head := match x with JsNull => "" | _ => toJsString x end in
             match l' with
             | [] => head
             | _ :: _ => head +:+ "," +:+ join l'
             end
         end) elems
  end.

(** Code units that [parseInt] skips at the start: TAB, LF, VT, FF, CR,
    SPACE and NBSP (strings here are sequences of code units below 256). *)
Definition isWhiteSpace (c : ascii) : bool :=
  let n := Z.of_nat (nat_of_ascii c) in
  (9 <=? n) && (n <=? 13) || (n =? 32) || (n =? 160).

Fixpoint trimStart (s : string) : string :=
  match s with
  | String c s' => if isWhiteSpace c then trimStart s' else s
  | EmptyString => EmptyString
  end.

Definition digitValue (c : ascii) : option Z :=
  let n := Z.of_nat (nat_of_ascii c) in
  if (48 <=? n) && (n <=? 57) then Some (n - 48) else None.

(** The longest prefix of decimal digits, as a number; [None] when there is
    no digit at all. *)
Fixpoint parseDigits (acc : option Z) (s : string) : option Z :=
  match s with
  | String c s' =>
      match digitValue c with
      | Some d => parseDigits (Some (10 * default 0 acc + d)) s'
      | None => acc
      end
  | EmptyString => acc
  end.

(** [parseInt(str, 10)]; [None] is [NaN]. *)
Definition parseInt (str : string) : option Z :=
  let t := trimStart str in
  match t with
  | String "-" r => Z.opp <$> parseDigits None r
  | String "+" r => parseDigits None r
  | _ => parseDigits None t
  end.

(** [offTaskScore > 70]: false for [NaN]. *)
Definition exceeds (score : option Z) (threshold : Z) : bool :=
  match score with
  | Some n => threshold <? n
  | None => false
  end.

(** ** Intervention Engine *)

Definition firstGifSrc : string :=
  "https://github.com/RohanT766/DeltaHacksXI/blob/main/animateWing1.gif?raw=true".

(** background.js lines 201-238.  In the redirect branch the array has at
    least two elements, so the index [length - 2] is in range. *)
Definition handleOffTask (tid : Z) : Handler :=
  emit (Console (LogOffTask tid)) ;;
  fun s =>
    let closeTab :=
      [Console (LogClosingTab tid);
       ExecuteScript tid firstGifSrc;
       SetTimeout (CloseTimer tid) 2000] in
    match tabHistory s !! tid with
    | Some h =>
        if (1 <? length h)%nat then
          let previousUrl := default "" (h !! (length h - 2)%nat) in
          (s, [Console (LogRedirecting previousUrl);
               ExecuteScript tid firstGifSrc;
               SetTimeout (RedirectTimer tid previousUrl) 2000])
        else (s, closeTab)
    | None => (s, closeTab)
    end.

(** The [.then((data) => ...)] and [.catch] of lines 178-198. *)
Definition fetchDone (sid : Z) (r : FetchResult) : Handler :=
  match r with
  | Rejected => emit (Console ErrCallingApi)
  | Resolved data => fun s =>
      match currentSession s with
      | Some c =>
          if sessionId c =? sid then
            if truthy data then
              let offTaskScore := parseInt (toJsString data) in
              (emit (Console (LogScore offTaskScore)) ;;
               if exceeds offTaskScore 70
               then handleOffTask (tabId c)
               else skip) s
            else (s, [Console ErrNoValidScore])
          else (s, [Console LogDisregardingResult])
      | None => (s, [Console LogDisregardingResult])
      end
  end.

(** ** Listeners *)

(** [chrome.runtime.onMessage], lines 10-24. *)
Definition onMessage (m : Message) : Handler :=
  match m with
  | StartTracking goal =>
      fun s =>
        (set_currentGoal goal (set_isTracking true s),
         [Console (LogGoalSet goal); SendResponse (RespStarted goal)])
  | StopTracking =>
      (fun s => (set_isTracking false s, [Console LogTrackingStopped])) ;;
      endSession ;;
      emit (SendResponse RespStopped)
  | GetTrackingState =>
      fun s => (s, [SendResponse (RespState (isTracking s) (currentGoal s))])
  | OtherMessage => skip
  end.

Definition isComplete (status : option string) : bool :=
  match status with
  | Some v => String.eqb v "complete"
  | None => false
  end.

(** [chrome.tabs.onUpdated], lines 27-42. *)
Definition onUpdated
    (now tid : Z) (status tabUrl : option string) : Handler := fun s =>
  match tabUrl with
  | Some v =>
      if isTracking s && isComplete status && negb (String.eqb v "") then
        (emit (Console (LogPageChanged v)) ;;
         updateTabHistory tid (Some v) ;;
         startSession now tid (Some v) ;;
         emit (SendFlyOwl tid)) s
      else (s, [])
  | None => (s, [])
  end.

(** [tab.url || "about:blank"]. *)
Definition orAboutBlank (tabUrl : option string) : string :=
  match tabUrl with
  | Some v => if String.eqb v "" then "about:blank" else v
  | None => "about:blank"
  end.

(** [chrome.tabs.onCreated], lines 45-60. *)
Definition onCreated (now tid : Z) (tabUrl : option string) : Handler := fun s =>
  if isTracking s then
    (emit (Console (LogNewTab tid (orAboutBlank tabUrl))) ;;
     updateTabHistory tid (Some (orAboutBlank tabUrl)) ;;
     startSession now tid (Some (orAboutBlank tabUrl)) ;;
     emit (SendFlyOwl tid)) s
  else (s, []).

(** [chrome.tabs.onActivated], lines 63-80: only the call to
    [chrome.tabs.get]; its callback is [tabsGetDone]. *)
Definition onActivated (tid : Z) : Handler := fun s =>
  if isTracking s then (s, [TabsGet tid]) else (s, []).

(** The callback of lines 65-78.  [tab = None] is the browser passing
    [undefined] (the tab is gone): reading [tab.url] throws before anything
    else has happened. *)
Definition tabsGetDone (now tid : Z) (tab : option (option string)) : Handler :=
  match tab with
  | None => skip
  | Some tabUrl =>
      emit (Console (LogSwitched tid tabUrl)) ;;
      updateTabHistory tid tabUrl ;;
      startSession now tid tabUrl ;;
      emit (SendFlyOwl tid)
  end.

(** The callback of each [chrome.tabs.sendMessage]. *)
Definition flyOwlDone (lastError : bool) (status : option string) : Handler :=
  if lastError then emit (Console ErrFlyOwl) else emit (Console (LogOwl status)).

Definition timerFired (now : Z) (t : Timer) : Handler :=
  match t with
  | CaptureTimer tid u => captureTimerFired now tid u
  | RedirectTimer tid previousUrl => emit (TabsUpdate tid previousUrl)
  | CloseTimer tid => emit (TabsRemove tid)
  end.

(** ** The event loop *)

(** One turn of the event loop: the browser delivers [ev] while the clock
    reads [now]. *)
Definition handle (now : Z) (ev : Event) : Handler :=
  match ev with
  | OnMessage m => onMessage m
  | OnUpdated tid status tabUrl => onUpdated now tid status tabUrl
  | OnCreated tid tabUrl => onCreated now tid tabUrl
  | OnActivated tid => onActivated tid
  | TabsGetDone tid tab => tabsGetDone now tid tab
  | FlyOwlDone lastError status => flyOwlDone lastError status
  | TimerFired t => timerFired now t
  | CaptureDone u sid lastError dataUrl => captureDone u sid lastError dataUrl
  | FetchDone sid r => fetchDone sid r
  end.

(** A whole execution: turns are taken one after the other, in the order
    given, each with its clock reading.  The list is arbitrary, so it covers
    every order in which the browser can interleave events and callbacks. *)
Fixpoint run (evs : list (Z * Event)) : Handler :=
  match evs with
  | [] => skip
  | (now, ev) :: rest => handle now ev ;; run rest
  end.

(** ** Derived observations used by the specification *)

(** A tab's sequence has no two neighbouring entries that are equal. *)
Definition NoAdjacentEqual (h : list string) : Prop :=
  forall (i : nat) (a b : string),
    h !! i = Some a -> h !! S i = Some b -> a <> b.

Definition LedgerOk (th : gmap Z (list string)) : Prop :=
  forall (tid : Z) (h : list string), th !! tid = Some h -> NoAdjacentEqual h.

(** A sequence of [updateTabHistory] calls. *)
Fixpoint recordVisits (visits : list (Z * option string)) : Handler :=
  match visits with
  | [] => skip
  | (tid, u) :: rest => updateTabHistory tid u ;; recordVisits rest
  end.

(** Kinds of browser call, for statements about what a turn did or did
    not do. *)
Definition isConsole (e : Effect) : bool :=
  match e with Console _ => true | _ => false end.

Definition isSessionStart (e : Effect) : bool :=
  match e with Console (LogStartingSession _ _) => true | _ => false end.

Definition isSessionEnd (e : Effect) : bool :=
  match e with Console (LogEndingSession _ _) => true | _ => false end.

Definition isCapture (e : Effect) : bool :=
  match e with CaptureVisibleTab _ _ => true | _ => false end.

Definition isFetch (e : Effect) : bool :=
  match e with Fetch _ _ _ => true | _ => false end.

(** How many sessions are live after the calls in [tr]: every "Starting new
    session" line opens one, every "Ending session" line closes one. *)
Fixpoint liveSessions (tr : list Effect) : Z :=
  match tr with
  | [] => 0
  | e :: rest =>
      (if isSessionStart e then 1 else if isSessionEnd e then -1 else 0)
      + liveSessions rest
  end.

(** Reading the same log with one bit of memory: [None] as soon as a session
    is started while one is live, or ended while none is. *)
Fixpoint sessionTrack (live : bool) (tr : list Effect) : option bool :=
  match tr with
  | [] => Some live
  | e :: rest =>
      if isSessionStart e then
        if live then None else sessionTrack true rest
      else if isSessionEnd e then
        if live then sessionTrack false rest else None
      else sessionTrack live rest
  end.

Definition hasSession (s : State) : bool :=
  match currentSession s with Some _ => true | None => false end.

(** The sessions created during an execution, in creation order, each with
    the clock reading of the turn that created it. *)
Fixpoint sessionsCreated (evs : list (Z * Event)) (s : State)
    : list (Z * Session) :=
  match evs with
  | [] => []
  | (now, ev) :: rest =>
      let r := handle now ev s in
      match existsb isSessionStart (snd r), currentSession (fst r) with
      | true, Some c => (now, c) :: sessionsCreated rest (fst r)
      | _, _ => sessionsCreated rest (fst r)
      end
  end.

(** The clock readings of the turns in which a capture was granted, that is
    in which [captureVisibleTab] was called. *)
Fixpoint grantedTimes (evs : list (Z * Event)) (s : State) : list Z :=
  match evs with
  | [] => []
  | (now, ev) :: rest =>
      let r := handle now ev s in
      if existsb isCapture (snd r)
      then now :: grantedTimes rest (fst r)
      else grantedTimes rest (fst r)
  end.

(** Neighbours in a list of times are at least 1000ms apart. *)
Definition Spaced (times : list Z) : Prop :=
  forall (i : nat) (a b : Z),
    times !! i = Some a -> times !! S i = Some b -> 1000 <= b - a.

(** *** Further observations *)

(** The calls by which [handleOffTask] acts on a tab: the script injection
    and the two timers that lead to navigation or removal. *)
Definition isIntervention (e : Effect) : bool :=
  match e with
  | ExecuteScript _ _ => true
  | SetTimeout (RedirectTimer _ _) _ => true
  | SetTimeout (CloseTimer _) _ => true
  | _ => false
  end.

Definition isMessage (ev : Event) : bool :=
  match ev with OnMessage _ => true | _ => false end.

Definition isTabsGetDone (ev : Event) : bool :=
  match ev with TabsGetDone _ _ => true | _ => false end.

(** Events whose handler only reads the variables. *)
Definition readOnly (ev : Event) : bool :=
  match ev with
  | OnMessage GetTrackingState => true
  | OnMessage OtherMessage => true
  | OnActivated _ => true
  | FlyOwlDone _ _ => true
  | TimerFired (RedirectTimer _ _) => true
  | TimerFired (CloseTimer _) => true
  | CaptureDone _ _ _ _ => true
  | FetchDone _ _ => true
  | _ => false
  end.

(** The arguments with which a turn calls [updateTabHistory] and then
    [startSession], when it does: the three tab listeners pass the tests of
    their first line. *)
Definition visitOf (ev : Event) (s : State) : option (Z * option string) :=
  match ev with
  | OnUpdated tid status (Some v) =>
      if isTracking s && isComplete status && negb (String.eqb v "")
      then Some (tid, Some v) else None
  | OnCreated tid tabUrl =>
      if isTracking s then Some (tid, Some (orAboutBlank tabUrl)) else None
  | TabsGetDone tid (Some tabUrl) => Some (tid, tabUrl)
  | _ => None
  end.

(** A recorded sequence as [updateTabHistory] builds it: not empty, free of
    blank and restricted URLs, without equal neighbours. *)
Definition CleanHistory (h : list string) : Prop :=
  h <> []
  /\ Forall (fun v => ignoredUrl (Some v) = false) h
  /\ NoAdjacentEqual h.

Definition LedgerClean (th : gmap Z (list string)) : Prop :=
  forall (tid : Z) (h : list string), th !! tid = Some h -> CleanHistory h.

(** The current session sits on the page its tab's history ends with. *)
Definition SessionOnLedger (s : State) : Prop :=
  forall c, currentSession s = Some c ->
    ignoredUrl (Some (url c)) = false
    /\ exists h, tabHistory s !! tabId c = Some h /\ last h = Some (url c).



(** * Properties *)

(** ** Handlers in sequence *)

Section Sequencing.

Variables h1 h2 : Handler.
Variable s : State.

Lemma andThen_state : fst ((h1 ;; h2) s) = fst (h2 (fst (h1 s))).
Proof. reflexivity. Qed.

Lemma andThen_effects :
  snd ((h1 ;; h2) s) = snd (h1 s) ++ snd (h2 (fst (h1 s))).
Proof. reflexivity. Qed.

End Sequencing.

Lemma set_tabHistory_same (s : State) : set_tabHistory (tabHistory s) s = s.
Proof. by destruct s. Qed.

(** ** Tab History Ledger *)

Lemma NoAdjacentEqual_nil : NoAdjacentEqual [].
Proof. intros i a b Hi. by rewrite lookup_nil in Hi. Qed.

Lemma NoAdjacentEqual_snoc (h : list string) (v : string) :
  NoAdjacentEqual h -> last h <> Some v -> NoAdjacentEqual (h ++ [v]).
Proof.
  intros Hh Hlast i a b Ha Hb.
  assert (Hlen : (S i < length (h ++ [v]))%nat) by (eapply lookup_lt_Some; eauto).
  rewrite length_app in Hlen; simpl in Hlen.
  destruct (decide (S i < length h)%nat) as [Hin | Hout].
  - rewrite lookup_app_l in Ha by lia.
    rewrite lookup_app_l in Hb by lia.
    eauto.
  - assert (Hi : S i = length h) by lia.
    rewrite lookup_app_l in Ha by lia.
    rewrite lookup_app_r in Hb by lia.
    replace (S i - length h)%nat with 0%nat in Hb by lia.
    simpl in Hb. injection Hb as <-.
    intros ->. apply Hlast.
    rewrite last_lookup. by replace (pred (length h)) with i by lia.
Qed.

(** What [updateTabHistory] leaves in [tabHistory] when it does not return
    early. *)
Lemma updateTabHistory_accepted (tid : Z) (v : string) (s : State) :
  ignoredUrl (Some v) = false ->
  let h := default [] (tabHistory s !! tid) in
  updateTabHistory tid (Some v) s =
    if decide (last h = Some v) then (s, [])
    else (set_tabHistory (<[tid := h ++ [v]]> (tabHistory s)) s,
          [Console (LogHistoryUpdated tid (h ++ [v]))]).
Proof.
  intros Hacc. unfold updateTabHistory. rewrite Hacc.
  destruct (tabHistory s !! tid) as [h|] eqn:Hlook; simpl.
  - rewrite Hlook; simpl.
    destruct (last h) as [l|] eqn:Hlast.
    + destruct (String.eqb_spec l v) as [-> | Hne].
      * assert (Hlen : Nat.eqb (length h) 0 = false).
        { apply Nat.eqb_neq. intros Hz. apply nil_length_inv in Hz.
          by subst h. }
        rewrite Hlen; simpl.
        rewrite decide_True by done. by rewrite set_tabHistory_same.
      * rewrite orb_true_r. rewrite decide_False by congruence. done.
    + rewrite orb_true_r. by rewrite decide_False.
  - rewrite lookup_insert_eq; simpl.
    by rewrite insert_insert_eq.
Qed.

Lemma updateTabHistory_ignored (tid : Z) (u : option string) (s : State) :
  ignoredUrl u = true -> updateTabHistory tid u s = (s, []).
Proof.
  intros Hign. unfold updateTabHistory. destruct u; [by rewrite Hign | done].
Qed.

Lemma updateTabHistory_LedgerOk (tid : Z) (u : option string) (s : State) :
  LedgerOk (tabHistory s) ->
  LedgerOk (tabHistory (fst (updateTabHistory tid u s))).
Proof.
  intros Hok.
  destruct (ignoredUrl u) eqn:Hign.
  { by rewrite updateTabHistory_ignored. }
  destruct u as [v|]; [| done].
  rewrite updateTabHistory_accepted by done. simpl.
  case_decide as Hlast; [done |]. simpl.
  intros tid' h'. rewrite lookup_insert.
  case_decide as Hk.
  - intros [= <-]. apply NoAdjacentEqual_snoc; [| done].
    destruct (tabHistory s !! tid) eqn:Hlook; simpl.
    + by eapply Hok.
    + apply NoAdjacentEqual_nil.
  - apply Hok.
Qed.

Lemma recordVisits_LedgerOk (visits : list (Z * option string)) (s : State) :
  LedgerOk (tabHistory s) ->
  LedgerOk (tabHistory (fst (recordVisits visits s))).
Proof.
  revert s. induction visits as [| [tid u] rest IH]; intros s Hok; [done |].
  cbn [recordVisits]. rewrite andThen_state.
  apply IH. by apply updateTabHistory_LedgerOk.
Qed.

Lemma initial_LedgerOk : LedgerOk (tabHistory initialState).
Proof. intros tid h. simpl. by rewrite lookup_empty. Qed.

(** C4. Whatever [updateTabHistory] calls have been made since start-up, with
    any tab ids and any URLs (missing, empty and restricted ones included),
    each tab's recorded sequence has no two neighbouring equal entries;
    recording again the entry that is already last for a tab changes nothing
    and produces no browser call, and so does recording an ignored URL. *)
Theorem C4_ledger_has_no_consecutive_duplicates
    (visits : list (Z * option string)) (tid : Z) (h : list string) :
  let s := fst (recordVisits visits initialState) in
  tabHistory s !! tid = Some h ->
  NoAdjacentEqual h
  /\ (forall v, last h = Some v -> updateTabHistory tid (Some v) s = (s, []))
  /\ (forall tid' u, ignoredUrl u = true -> updateTabHistory tid' u s = (s, [])).
Proof.
  intros s Hlook. split; [| split].
  - eapply (recordVisits_LedgerOk visits initialState initial_LedgerOk); eauto.
  - intros v Hlast.
    destruct (ignoredUrl (Some v)) eqn:Hign.
    + by apply updateTabHistory_ignored.
    + rewrite updateTabHistory_accepted by done. simpl.
      rewrite Hlook; simpl. by rewrite decide_True.
  - intros tid' u. apply updateTabHistory_ignored.
Qed.

Lemma C4_ledger_witness :
  let visits :=
    [(1, Some "https://work.example.com"); (1, Some "https://work.example.com");
     (1, None); (1, Some "chrome://settings");
     (1, Some "https://social.example.com")] in
  let s := fst (recordVisits visits initialState) in
  NoAdjacentEqual ["https://work.example.com"; "https://social.example.com"]
  /\ updateTabHistory 1 (Some "https://social.example.com") s = (s, []).
Proof.
  intros visits s.
  destruct (C4_ledger_has_no_consecutive_duplicates visits 1
              ["https://work.example.com"; "https://social.example.com"])
    as (Hno & Hsame & _).
  - vm_compute. reflexivity.
  - split; [exact Hno |]. apply Hsame. reflexivity.
Defined.

(** ** Intervention Engine *)

(** C5. [handleOffTask] leaves every variable as it was.  With at least two
    recorded entries for the tab it injects the GIF and sets a 2000ms timer
    that, when it fires, navigates the tab to the second-to-last entry and
    does nothing else; with no history or at most one entry it injects the
    same GIF and sets a 2000ms timer that, when it fires, removes the tab
    and does nothing else. *)
Theorem C5_redirect_or_close (tid : Z) (s : State) :
  fst (handleOffTask tid s) = s
  /\ (forall h,
        tabHistory s !! tid = Some h -> (2 <= length h)%nat ->
        exists previousUrl,
          h !! (length h - 2)%nat = Some previousUrl
          /\ snd (handleOffTask tid s) =
               [Console (LogOffTask tid);
                Console (LogRedirecting previousUrl);
                ExecuteScript tid firstGifSrc;
                SetTimeout (RedirectTimer tid previousUrl) 2000]
          /\ forall now s',
               handle now (TimerFired (RedirectTimer tid previousUrl)) s' =
                 (s', [TabsUpdate tid previousUrl]))
  /\ ((length (default [] (tabHistory s !! tid)) <= 1)%nat ->
        snd (handleOffTask tid s) =
          [Console (LogOffTask tid);
           Console (LogClosingTab tid);
           ExecuteScript tid firstGifSrc;
           SetTimeout (CloseTimer tid) 2000]
        /\ forall now s',
             handle now (TimerFired (CloseTimer tid)) s' =
               (s', [TabsRemove tid])).
Proof.
  unfold handleOffTask. rewrite andThen_state, andThen_effects. cbn [emit fst snd].
  split; [| split].
  - by repeat case_match.
  - intros h Hlook Hlen. rewrite Hlook.
    assert (Hlt : (1 <? length h)%nat = true) by (apply Nat.ltb_lt; lia).
    rewrite Hlt.
    destruct (lookup_lt_is_Some_2 h (length h - 2)%nat) as [p Hp]; [lia |].
    exists p. rewrite Hp. done.
  - intros Hlen. split; [| done].
    destruct (tabHistory s !! tid) as [h|]; [| done].
    simpl in Hlen.
    assert (Hlt : (1 <? length h)%nat = false) by (apply Nat.ltb_ge; lia).
    by rewrite Hlt.
Qed.

Lemma C5_redirect_or_close_witness :
  let work := "https://work.example.com" in
  let social := "https://social.example.com" in
  let visited := {| currentSession := None; lastCaptureTime := 0;
                    isTracking := true; currentGoal := "finish report";
                    tabHistory := {[ 1 := [work; social]; 2 := [social] ]} |} in
  (snd (handleOffTask 1 visited) =
     [Console (LogOffTask 1); Console (LogRedirecting work);
      ExecuteScript 1 firstGifSrc; SetTimeout (RedirectTimer 1 work) 2000])
  /\ (snd (handleOffTask 2 visited) =
        [Console (LogOffTask 2); Console (LogClosingTab 2);
         ExecuteScript 2 firstGifSrc; SetTimeout (CloseTimer 2) 2000]).
Proof.
  intros work social visited. split.
  - destruct (C5_redirect_or_close 1 visited) as (_ & Hredirect & _).
    destruct (Hredirect [work; social]) as (p & Hp & Heff & _).
    + vm_compute. reflexivity.
    + simpl. lia.
    + simpl in Hp. injection Hp as <-. exact Heff.
  - destruct (C5_redirect_or_close 2 visited) as (_ & _ & Hclose).
    destruct Hclose as [Heff _].
    + vm_compute. lia.
    + exact Heff.
Defined.

(** ** Classification Client *)

Lemma exceeds_spec (score : option Z) (threshold : Z) :
  exceeds score threshold = true <-> exists n, score = Some n /\ threshold < n.
Proof.
  destruct score as [n|]; simpl.
  - rewrite Z.ltb_lt. split; [eauto | by intros (m & [= ->] & Hm)].
  - split; [done | by intros (m & Hm & _)].
Qed.

(** The guard [if (data)] never hides a score above the threshold: every
    falsy JSON value parses to 0 or to [NaN]. *)
Lemma falsy_not_exceeds (data : JsValue) :
  truthy data = false -> exceeds (parseInt (toJsString data)) 70 = false.
Proof.
  destruct data as [| [|] | n | str | elems |]; simpl; try done.
  - intros Hn. apply negb_false_iff, Z.eqb_eq in Hn. by subst n.
  - intros Hs. apply negb_false_iff, String.eqb_eq in Hs. by subst str.
Qed.

Lemma handleOffTask_state (tid : Z) (s : State) : fst (handleOffTask tid s) = s.
Proof.
  unfold handleOffTask. rewrite andThen_state. cbn [emit fst].
  by repeat case_match.
Qed.

Lemma handleOffTask_head (tid : Z) (s : State) :
  exists rest, snd (handleOffTask tid s) = Console (LogOffTask tid) :: rest.
Proof.
  unfold handleOffTask. rewrite andThen_effects. cbn [emit fst snd app]. eauto.
Qed.

(** C6. When the response arrives and the current session still carries the
    [sessionId] of the request, no variable changes, and [handleOffTask] is
    called, with the current session's [tabId], exactly when [parseInt] of
    the response is a number above 70.  A score of 70 or less and a response
    that parses to [NaN] produce console output only: no script injection,
    no timer, no navigation, no tab removal. *)
Theorem C6_intervention_iff_score_above_70
    (s : State) (c : Session) (data : JsValue) :
  currentSession s = Some c ->
  let r := fetchDone (sessionId c) (Resolved data) s in
  let score := parseInt (toJsString data) in
  fst r = s
  /\ (In (Console (LogOffTask (tabId c))) (snd r)
      <-> exists n, score = Some n /\ 70 < n)
  /\ ((exists n, score = Some n /\ 70 < n) ->
      snd r = Console (LogScore score) :: snd (handleOffTask (tabId c) s))
  /\ ((forall n, score = Some n -> n <= 70) ->
      forallb isConsole (snd r) = true).
Proof.
  intros Hc r score. subst r. unfold fetchDone. rewrite Hc, Z.eqb_refl.
  fold score.
  destruct (exceeds score 70) eqn:Hex.
  - assert (Htruthy : truthy data = true).
    { destruct (truthy data) eqn:Ht; [done |].
      apply falsy_not_exceeds in Ht. fold score in Ht. congruence. }
    rewrite Htruthy, andThen_state, andThen_effects. cbn [emit fst snd app].
    apply exceeds_spec in Hex.
    split; [apply handleOffTask_state |]. split; [| split].
    + split; [done |]. intros _. right.
      destruct (handleOffTask_head (tabId c) s) as [rest ->]. by left.
    + done.
    + intros Hle. destruct Hex as (n & Hn & Hgt). specialize (Hle n Hn). lia.
  - assert (Hno : ~ exists n, score = Some n /\ 70 < n).
    { rewrite <- exceeds_spec. congruence. }
    destruct (truthy data); cbn.
    + repeat split; try done; intros H; try done.
      destruct H as [[=] | []].
    + repeat split; try done; intros H; try done.
      destruct H as [[=] | []].
Qed.

Lemma C6_intervention_witness :
  let s := {| currentSession :=
                Some {| tabId := 1; url := "https://social.example.com";
                        sessionId := 5000 |};
              lastCaptureTime := 7000; isTracking := true;
              currentGoal := "finish report";
              tabHistory := {[ 1 := ["https://social.example.com"] ]} |} in
  (snd (fetchDone 5000 (Resolved (JsNumber 85)) s) =
     [Console (LogScore (Some 85));
      Console (LogOffTask 1); Console (LogClosingTab 1);
      ExecuteScript 1 firstGifSrc; SetTimeout (CloseTimer 1) 2000])
  /\ forallb isConsole (snd (fetchDone 5000 (Resolved (JsString "40")) s)) = true.
Proof.
  intros s. split.
  - destruct (C6_intervention_iff_score_above_70 s
                {| tabId := 1; url := "https://social.example.com";
                   sessionId := 5000 |} (JsNumber 85) eq_refl)
      as (_ & _ & Habove & _).
    refine (Habove _). exists 85. split; [reflexivity | lia].
  - destruct (C6_intervention_iff_score_above_70 s
                {| tabId := 1; url := "https://social.example.com";
                   sessionId := 5000 |} (JsString "40") eq_refl)
      as (_ & _ & _ & Hbelow).
    apply Hbelow. intros n Hn. vm_compute in Hn. injection Hn as <-. lia.
Defined.

(** C8. If no session is current, or the current session's [sessionId] is
    not the one passed in, [analyzeScreenshotWithOpenAI] returns before the
    [fetch] with every variable unchanged, also when reached through the
    capture callback; and a response that arrives in such a state is dropped
    with every variable unchanged and nothing but a console line. *)
Theorem C8_stale_session_is_discarded
    (s : State) (sid : Z) (u base64Screenshot goal : string) (data : JsValue) :
  (currentSession s = None
   \/ exists c, currentSession s = Some c /\ sessionId c <> sid) ->
  analyzeScreenshotWithOpenAI base64Screenshot goal sid s =
    (s, [Console LogDisregardingCall])
  /\ (fst (captureDone u sid None base64Screenshot s) = s
      /\ existsb isFetch (snd (captureDone u sid None base64Screenshot s)) = false)
  /\ fetchDone sid (Resolved data) s = (s, [Console LogDisregardingResult]).
Proof.
  intros Hstale.
  assert (Hno : sessionIs sid s = false).
  { unfold sessionIs. destruct Hstale as [-> | (c & -> & Hne)]; [done |].
    by apply Z.eqb_neq. }
  assert (Hcall : forall shot g,
            analyzeScreenshotWithOpenAI shot g sid s =
              (s, [Console LogDisregardingCall])).
  { intros shot g. unfold analyzeScreenshotWithOpenAI. by rewrite Hno. }
  split; [apply Hcall |]. split.
  - unfold captureDone. rewrite !andThen_state, !andThen_effects.
    cbn [emit fst snd]. by rewrite Hcall.
  - unfold fetchDone. unfold sessionIs in Hno.
    destruct (currentSession s) as [c|]; [| done]. by rewrite Hno.
Qed.

Lemma C8_stale_session_witness :
  let s := {| currentSession :=
                Some {| tabId := 2; url := "https://b.example.com";
                        sessionId := 9000 |};
              lastCaptureTime := 8000; isTracking := true;
              currentGoal := "finish report"; tabHistory := ∅ |} in
  analyzeScreenshotWithOpenAI "data:image/png;base64,AAAA" "finish report" 5000 s =
    (s, [Console LogDisregardingCall])
  /\ fetchDone 5000 (Resolved (JsNumber 85)) s =
       (s, [Console LogDisregardingResult]).
Proof.
  intros s.
  destruct (C8_stale_session_is_discarded s 5000 "https://a.example.com"
              "data:image/png;base64,AAAA" "finish report" (JsNumber 85))
    as (Hcall & _ & Hresult).
  - right. eexists. split; [reflexivity | simpl; lia].
  - split; [exact Hcall | exact Hresult].
Defined.

(** ** Listeners *)

(** C10. While [isTracking] is false, the listeners for tab-updated (with
    any status), tab-created and tab-activated return the state they were
    given and make no browser call at all: nothing is logged, no timer is
    set, no [flyOwl] message is sent and no [chrome.tabs.get] is issued. *)
Theorem C10_tab_events_ignored_when_not_tracking
    (s : State) (now tid : Z) (status tabUrl : option string) :
  isTracking s = false ->
  handle now (OnUpdated tid status tabUrl) s = (s, [])
  /\ handle now (OnCreated tid tabUrl) s = (s, [])
  /\ handle now (OnActivated tid) s = (s, []).
Proof.
  intros Hoff. cbn [handle]. unfold onUpdated, onCreated, onActivated.
  rewrite Hoff. cbn [andb]. by destruct tabUrl.
Qed.

Lemma C10_tab_events_witness :
  handle 1000 (OnUpdated 1 (Some "complete") (Some "https://a.example.com"))
    initialState = (initialState, [])
  /\ handle 1000 (OnCreated 1 (Some "https://a.example.com")) initialState =
       (initialState, [])
  /\ handle 1000 (OnActivated 1) initialState = (initialState, []).
Proof.
  apply (C10_tab_events_ignored_when_not_tracking initialState 1000 1
           (Some "complete") (Some "https://a.example.com")).
  reflexivity.
Defined.

(** ** One turn of the event loop, case by case *)

Lemma updateTabHistory_cases (tid : Z) (u : option string) (s : State) :
  updateTabHistory tid u s = (s, [])
  \/ exists h,
       updateTabHistory tid u s =
         (set_tabHistory (<[tid := h]> (tabHistory s)) s,
          [Console (LogHistoryUpdated tid h)]).
Proof.
  destruct (ignoredUrl u) eqn:Hign.
  { left. by apply updateTabHistory_ignored. }
  destruct u as [v|]; [| done].
  rewrite updateTabHistory_accepted by done. simpl.
  case_decide; [by left | right; eauto].
Qed.

Ltac unfold_handlers :=
  unfold handle, onMessage, onUpdated, onCreated, onActivated, tabsGetDone,
    flyOwlDone, timerFired, captureTimerFired, takeScreenshot, captureDone,
    analyzeScreenshotWithOpenAI, sessionIs, fetchDone, handleOffTask,
    startSession, endSession, andThen, emit, skip.

Ltac split_history :=
  repeat match goal with
  | |- context [updateTabHistory ?tid ?u ?s] =>
      let h := fresh "h" in
      let Hu := fresh "Hu" in
      destruct (updateTabHistory_cases tid u s) as [Hu | [h Hu]];
      rewrite !Hu; clear Hu
  end.

(** Every path through every listener and callback. *)
Ltac step_cases :=
  unfold_handlers; split_history; cbn;
  repeat (case_match; cbn in *; try done).

(** While no session is current, a turn that starts none leaves none
    current, takes no screenshot and sends no request. *)
Lemma step_idle (now : Z) (ev : Event) (s : State) :
  currentSession s = None ->
  existsb isSessionStart (snd (handle now ev s)) = false ->
  currentSession (fst (handle now ev s)) = None
  /\ existsb isCapture (snd (handle now ev s)) = false
  /\ existsb isFetch (snd (handle now ev s)) = false.
Proof. intros Hidle. step_cases. all: congruence. Qed.

(** The session log of one turn is consistent with the variable. *)
Lemma step_tracks (now : Z) (ev : Event) (s : State) :
  sessionTrack (hasSession s) (snd (handle now ev s)) =
    Some (hasSession (fst (handle now ev s))).
Proof. unfold hasSession. step_cases. all: congruence. Qed.

(** A turn that logs "Starting new session" leaves a session stamped with
    the turn's clock reading. *)
Lemma step_created (now : Z) (ev : Event) (s : State) :
  existsb isSessionStart (snd (handle now ev s)) = true ->
  exists c, currentSession (fst (handle now ev s)) = Some c /\ sessionId c = now.
Proof. step_cases. all: intros _; eauto. Qed.

(** A turn calls [captureVisibleTab] only 1000ms or more after the recorded
    last capture, and then records its own clock reading; any other turn
    leaves [lastCaptureTime] alone. *)
Lemma step_capture (now : Z) (ev : Event) (s : State) :
  if existsb isCapture (snd (handle now ev s))
  then lastCaptureTime (fst (handle now ev s)) = now
       /\ lastCaptureTime s + 1000 <= now
  else lastCaptureTime (fst (handle now ev s)) = lastCaptureTime s.
Proof. step_cases. all: split; [done | lia]. Qed.

(** ** Whole executions *)

Lemma run_cons (now : Z) (ev : Event) (rest : list (Z * Event)) (s : State) :
  run ((now, ev) :: rest) s =
    (fst (run rest (fst (handle now ev s))),
     snd (handle now ev s) ++ snd (run rest (fst (handle now ev s)))).
Proof. reflexivity. Qed.

Lemma liveSessions_app (a b : list Effect) :
  liveSessions (a ++ b) = liveSessions a + liveSessions b.
Proof. induction a as [| e a IH]; simpl; lia. Qed.

Lemma sessionTrack_app (live : bool) (a b : list Effect) :
  sessionTrack live (a ++ b) =
    match sessionTrack live a with
    | Some live' => sessionTrack live' b
    | None => None
    end.
Proof.
  revert live. induction a as [| e a IH]; intros live; simpl; [done |].
  destruct (isSessionStart e), (isSessionEnd e), live; auto.
Qed.

(** A log accepted by [sessionTrack] never counts more than one live session
    or fewer than none, at any point of it. *)
Lemma sessionTrack_sound (tr : list Effect) :
  forall (live live' : bool),
    sessionTrack live tr = Some live' ->
    (forall n, 0 <= Z.b2z live + liveSessions (take n tr) <= 1)
    /\ Z.b2z live + liveSessions tr = Z.b2z live'.
Proof.
  induction tr as [| e tr IH]; intros live live' Htrack.
  - simpl in Htrack. injection Htrack as <-. split.
    + intros n. rewrite take_nil. destruct live; simpl; lia.
    + simpl. lia.
  - simpl in Htrack.
    destruct (isSessionStart e) eqn:Hstart; [| destruct (isSessionEnd e) eqn:Hend].
    + destruct live; [done |]. destruct (IH _ _ Htrack) as [Hpre Hall].
      split; [| simpl in *; rewrite Hstart; lia].
      intros [| n]; simpl; [lia |]. rewrite Hstart. specialize (Hpre n).
      simpl in Hpre. lia.
    + destruct live; [| done]. destruct (IH _ _ Htrack) as [Hpre Hall].
      split; [| simpl in *; rewrite Hstart, Hend; lia].
      intros [| n]; simpl; [lia |]. rewrite Hstart, Hend. specialize (Hpre n).
      simpl in Hpre. lia.
    + destruct (IH _ _ Htrack) as [Hpre Hall].
      split; [| simpl in *; rewrite Hstart, Hend; lia].
      intros [| n]; simpl; [destruct live; simpl; lia |].
      rewrite Hstart, Hend. specialize (Hpre n). lia.
Qed.

Lemma run_tracks (evs : list (Z * Event)) (s : State) :
  sessionTrack (hasSession s) (snd (run evs s)) =
    Some (hasSession (fst (run evs s))).
Proof.
  revert s. induction evs as [| [now ev] rest IH]; intros s; [done |].
  rewrite run_cons. cbn [fst snd].
  by rewrite sessionTrack_app, step_tracks, IH.
Qed.

(** C3. In every execution from start-up, whatever the order of events and
    callbacks, and at every point of the sequence of calls the script makes,
    the number of sessions started and not yet ended is 0 or 1: no session
    is started while another is live, because [startSession] ends the
    current one first.  At the end of every turn that number is 1 exactly
    when [currentSession] is set. *)
Theorem C3_at_most_one_live_session (evs : list (Z * Event)) (n : nat) :
  0 <= liveSessions (take n (snd (run evs initialState))) <= 1
  /\ liveSessions (snd (run evs initialState)) =
       Z.b2z (hasSession (fst (run evs initialState))).
Proof.
  destruct (sessionTrack_sound _ _ _ (run_tracks evs initialState))
    as [Hpre Hall].
  split; [apply (Hpre n) | exact Hall].
Qed.

(** [startSession] is [endSession] followed by the creation, and the
    creation runs in a state without a session. *)
Lemma startSession_ends_first (now tid : Z) (u : option string) (s : State) :
  currentSession (fst (endSession s)) = None
  /\ exists created,
       snd (startSession now tid u s) = snd (endSession s) ++ created
       /\ existsb isSessionEnd created = false.
Proof.
  split.
  - unfold endSession. by destruct (currentSession s) eqn:Hc.
  - unfold startSession. rewrite andThen_effects.
    destruct u as [v|]; [destruct (ignoredUrl (Some v)) |];
      eexists; (split; [reflexivity | reflexivity]).
Qed.

Lemma run_idle (evs : list (Z * Event)) (s : State) :
  currentSession s = None ->
  existsb isSessionStart (snd (run evs s)) = false ->
  currentSession (fst (run evs s)) = None
  /\ existsb isCapture (snd (run evs s)) = false
  /\ existsb isFetch (snd (run evs s)) = false.
Proof.
  revert s. induction evs as [| [now ev] rest IH]; intros s Hidle Hnone; [done |].
  rewrite run_cons in *. cbn [fst snd] in *.
  rewrite existsb_app in Hnone. apply orb_false_iff in Hnone as [Hhere Hlater].
  destruct (step_idle now ev s Hidle Hhere) as (Hidle' & Hcap & Hfetch).
  destruct (IH _ Hidle' Hlater) as (Hend & Hcap' & Hfetch').
  by rewrite !existsb_app, Hcap, Hfetch, Hcap', Hfetch'.
Qed.

(** C9. Processing [stopTracking] clears [currentSession] and [isTracking]
    at once.  From then on, through any sequence of events and callbacks in
    which no new session is started, and in particular when the timer of a
    capture scheduled before the stop fires, [captureVisibleTab] is never
    called and no request is sent to the scoring server: a capture timer
    that fires in the stopped state only logs that the session ended. *)
Theorem C9_stop_cancels_scheduled_capture
    (s : State) (nowStop : Z) (evs : list (Z * Event)) :
  let stopped := fst (handle nowStop (OnMessage StopTracking) s) in
  existsb isSessionStart (snd (run evs stopped)) = false ->
  currentSession stopped = None
  /\ isTracking stopped = false
  /\ (forall now tid u,
        handle now (TimerFired (CaptureTimer tid u)) stopped =
          (stopped, [Console LogSessionEndedBeforeScreenshot]))
  /\ existsb isCapture (snd (run evs stopped)) = false
  /\ existsb isFetch (snd (run evs stopped)) = false.
Proof.
  intros stopped Hnone.
  assert (Hidle : currentSession stopped = None).
  { subst stopped. unfold_handlers. cbn. by destruct (currentSession s) eqn:Hc. }
  split; [exact Hidle |]. split; [| split].
  - subst stopped. unfold_handlers. cbn. by destruct (currentSession s) eqn:Hc.
  - intros now tid u. cbn [handle timerFired]. unfold captureTimerFired.
    by rewrite Hidle.
  - destruct (run_idle evs stopped Hidle Hnone) as (_ & Hcap & Hfetch). done.
Qed.

Lemma C9_stop_witness :
  let docs := "https://docs.example.com" in
  let tracking :=
    fst (run [(1000000, OnMessage (StartTracking "finish report"));
              (1000100, OnUpdated 1 (Some "complete") (Some docs))]
           initialState) in
  let stopped := fst (handle 1000900 (OnMessage StopTracking) tracking) in
  let later :=
    [(1001000, OnUpdated 1 (Some "complete") (Some docs));
     (1002100, TimerFired (CaptureTimer 1 docs));
     (1002200, CaptureDone docs 1000100 None "data:image/png;base64,AAAA")] in
  In (SetTimeout (CaptureTimer 1 docs) 2000)
     (snd (handle 1000100 (OnUpdated 1 (Some "complete") (Some docs))
             (fst (handle 1000000 (OnMessage (StartTracking "finish report"))
                     initialState))))
  /\ currentSession stopped = None
  /\ existsb isCapture (snd (run later stopped)) = false
  /\ existsb isFetch (snd (run later stopped)) = false.
Proof.
  intros docs tracking stopped later.
  split; [vm_compute; tauto |].
  destruct (C9_stop_cancels_scheduled_capture tracking 1000900 later)
    as (Hidle & _ & _ & Hcap & Hfetch).
  - vm_compute. reflexivity.
  - split; [exact Hidle |]. split; [exact Hcap | exact Hfetch].
Defined.

(** ** Session identities *)

Lemma sublist_Forall_inv {A} (P : A -> Prop) (l1 l2 : list A) :
  l1 `sublist_of` l2 -> Forall P l2 -> Forall P l1.
Proof.
  induction 1 as [| x l1 l2 _ IH | x l1 l2 _ IH]; intros Hall.
  - done.
  - apply Forall_cons in Hall as [Hx Hall]. apply Forall_cons. auto.
  - apply Forall_cons in Hall as [_ Hall]. auto.
Qed.

Lemma sublist_StronglySorted {A} (R : A -> A -> Prop) (l1 l2 : list A) :
  l1 `sublist_of` l2 -> StronglySorted R l2 -> StronglySorted R l1.
Proof.
  induction 1 as [| x l1 l2 Hsub IH | x l1 l2 Hsub IH]; intros Hsorted.
  - done.
  - apply StronglySorted_inv in Hsorted as [Hrest Hhd].
    apply SSorted_cons; [auto | by eapply sublist_Forall_inv].
  - apply StronglySorted_inv in Hsorted as [Hrest _]. auto.
Qed.

Lemma sessionsCreated_stamped (evs : list (Z * Event)) (s : State) :
  Forall (fun tc => sessionId (snd tc) = fst tc) (sessionsCreated evs s).
Proof.
  revert s. induction evs as [| [now ev] rest IH]; intros s; [constructor |].
  cbn [sessionsCreated].
  destruct (existsb isSessionStart (snd (handle now ev s))) eqn:Hstart; [| apply IH].
  destruct (step_created now ev s Hstart) as (c & Hc & Hid).
  rewrite Hc. apply Forall_cons. split; [exact Hid | apply IH].
Qed.

Lemma sessionsCreated_turns (evs : list (Z * Event)) (s : State) :
  map fst (sessionsCreated evs s) `sublist_of` map fst evs.
Proof.
  revert s. induction evs as [| [now ev] rest IH]; intros s; [constructor |].
  cbn [sessionsCreated map fst].
  destruct (existsb isSessionStart (snd (handle now ev s)));
    [destruct (currentSession (fst (handle now ev s))) |].
  - apply sublist_skip, IH.
  - apply sublist_cons, IH.
  - apply sublist_cons, IH.
Qed.

(** C2 as the script has it. Each session created carries as [sessionId] the
    clock reading of the turn that created it, and different sessions come
    from different turns; so, when the clock never goes back, [sessionId]s
    never decrease in creation order, and two sessions created at different
    clock readings have different [sessionId]s. *)
Theorem C2_session_ids_are_clock_readings (evs : list (Z * Event)) :
  Sorted Z.le (map fst evs) ->
  let created := sessionsCreated evs initialState in
  Forall (fun tc => sessionId (snd tc) = fst tc) created
  /\ map fst created `sublist_of` map fst evs
  /\ Sorted Z.le (map (fun tc => sessionId (snd tc)) created).
Proof.
  intros Hclock created.
  assert (Hstamp := sessionsCreated_stamped evs initialState).
  assert (Hturns := sessionsCreated_turns evs initialState).
  fold created in Hstamp, Hturns.
  split; [exact Hstamp |]. split; [exact Hturns |].
  replace (map (fun tc => sessionId (snd tc)) created) with (map fst created).
  - apply StronglySorted_Sorted.
    eapply sublist_StronglySorted; [exact Hturns |].
    apply Sorted_StronglySorted; [| exact Hclock].
    intros x y z. apply Z.le_trans.
  - clear Hturns. induction Hstamp as [| tc l Htc _ IH]; [done |].
    simpl. by rewrite Htc, IH.
Qed.

Lemma C2_session_ids_witness :
  let evs :=
    [(1000000, OnMessage (StartTracking "finish report"));
     (1000100, OnUpdated 1 (Some "complete") (Some "https://a.example.com"));
     (1000100, OnCreated 2 None);
     (1000700, OnUpdated 2 (Some "complete") (Some "https://b.example.com"))] in
  map (fun tc => sessionId (snd tc)) (sessionsCreated evs initialState) =
    [1000100; 1000700]
  /\ Sorted Z.le [1000100; 1000700].
Proof.
  intros evs.
  destruct (C2_session_ids_are_clock_readings evs) as (_ & _ & Hsorted).
  - simpl. repeat constructor; lia.
  - split; [vm_compute; reflexivity | exact Hsorted].
Defined.

(** Against C2 as stated: two sessions created within the same millisecond,
    for different tabs, carry the same [sessionId]. *)
Lemma C2_same_millisecond_counterexample :
  let evs :=
    [(1000000, OnMessage (StartTracking "finish report"));
     (1000100, OnUpdated 1 (Some "complete") (Some "https://a.example.com"));
     (1000100, OnUpdated 2 (Some "complete") (Some "https://b.example.com"))] in
  Sorted Z.le (map fst evs)
  /\ exists a b,
       map snd (sessionsCreated evs initialState) = [a; b]
       /\ a <> b
       /\ sessionId a = sessionId b.
Proof.
  intros evs. split.
  - simpl. repeat constructor; lia.
  - exists {| tabId := 1; url := "https://a.example.com"; sessionId := 1000100 |},
           {| tabId := 2; url := "https://b.example.com"; sessionId := 1000100 |}.
    split; [vm_compute; reflexivity |]. split; [discriminate | reflexivity].
Qed.

(** ** Capture Gate *)

Lemma Spaced_cons (a : Z) (times : list Z) :
  (forall b, head times = Some b -> 1000 <= b - a) ->
  Spaced times -> Spaced (a :: times).
Proof.
  intros Hhead Hrest [| i] x y Hx Hy; simpl in *.
  - injection Hx as <-. apply Hhead. by rewrite head_lookup.
  - eauto.
Qed.

(** Across any execution, the turns that call [captureVisibleTab] are at
    least 1000ms apart, the first of them at least 1000ms after the recorded
    last capture. *)
Lemma grantedTimes_spaced (evs : list (Z * Event)) (s : State) :
  Spaced (lastCaptureTime s :: grantedTimes evs s).
Proof.
  revert s. induction evs as [| [now ev] rest IH]; intros s.
  - cbn [grantedTimes]. apply Spaced_cons; [done |].
    intros i a b Hi. by rewrite lookup_nil in Hi.
  - cbn [grantedTimes]. pose proof (step_capture now ev s) as Hstep.
    specialize (IH (fst (handle now ev s))).
    destruct (existsb isCapture (snd (handle now ev s))).
    + destruct Hstep as [Hnow Hgap]. rewrite Hnow in IH.
      apply Spaced_cons; [| exact IH].
      intros b [= <-]. lia.
    + by rewrite Hstep in IH.
Qed.

(** C7. After a capture attempt granted at [t1], the next attempt, at [t2],
    is refused when [t2 - t1 < 1000], leaving [lastCaptureTime] at [t1] and
    every other variable as it was, and is granted when [t2 - t1 >= 1000],
    setting [lastCaptureTime] to [t2].  Hence in any execution that follows
    the grant at [t1], the granted captures, [t1] included, are at least
    1000ms apart from one to the next. *)
Theorem C7_capture_gate
    (s : State) (t1 t2 : Z) (u1 u2 : string) (sid1 sid2 : Z) :
  t1 < t2 ->
  snd (takeScreenshot t1 u1 sid1 s) = [CaptureVisibleTab u1 sid1] ->
  let s1 := fst (takeScreenshot t1 u1 sid1 s) in
  lastCaptureTime s1 = t1
  /\ (t2 - t1 < 1000 ->
      takeScreenshot t2 u2 sid2 s1 = (s1, [Console WarnRateLimit]))
  /\ (1000 <= t2 - t1 ->
      takeScreenshot t2 u2 sid2 s1 =
        (set_lastCaptureTime t2 s1, [CaptureVisibleTab u2 sid2])
      /\ lastCaptureTime (fst (takeScreenshot t2 u2 sid2 s1)) = t2)
  /\ (forall evs, Spaced (t1 :: grantedTimes evs s1)).
Proof.
  intros Horder Hgranted s1.
  assert (Hlast : lastCaptureTime s1 = t1).
  { subst s1. unfold takeScreenshot in *.
    by destruct (t1 - lastCaptureTime s <? 1000). }
  split; [exact Hlast |]. split; [| split].
  - intros Hclose. unfold takeScreenshot. rewrite Hlast.
    by rewrite (proj2 (Z.ltb_lt _ _) Hclose).
  - intros Hfar. unfold takeScreenshot. rewrite Hlast.
    by rewrite (proj2 (Z.ltb_ge _ _) Hfar).
  - intros evs. rewrite <- Hlast. apply grantedTimes_spaced.
Qed.

Lemma C7_capture_gate_witness :
  let s1 := fst (takeScreenshot 1002100 "https://a.example.com" 1000100
                   initialState) in
  takeScreenshot 1002600 "https://b.example.com" 1000600 s1 =
    (s1, [Console WarnRateLimit])
  /\ takeScreenshot 1003100 "https://b.example.com" 1000600 s1 =
       (set_lastCaptureTime 1003100 s1,
        [CaptureVisibleTab "https://b.example.com" 1000600]).
Proof.
  intros s1. split.
  - destruct (C7_capture_gate initialState 1002100 1002600
                "https://a.example.com" "https://b.example.com"
                1000100 1000600) as (_ & Hdenied & _).
    + lia.
    + reflexivity.
    + apply Hdenied. lia.
  - destruct (C7_capture_gate initialState 1002100 1003100
                "https://a.example.com" "https://b.example.com"
                1000100 1000600) as (_ & _ & Hgranted & _).
    + lia.
    + reflexivity.
    + apply Hgranted. lia.
Defined.

(** ** The capture timer *)

(** What the timer callback of [startSession] does: it looks at the tab of
    the current session only, and passes on the current session's
    [sessionId], whichever session set the timer. *)
Lemma captureTimerFired_same_tab
    (now tid : Z) (u : string) (s : State) (c : Session) :
  currentSession s = Some c -> tabId c = tid ->
  captureTimerFired now tid u s = takeScreenshot now u (sessionId c) s.
Proof.
  intros Hc Htab. unfold captureTimerFired. rewrite Hc.
  by rewrite (proj2 (Z.eqb_eq _ _) Htab).
Qed.

(** The timer is dropped when no session is current or the current session
    is on another tab. *)
Lemma captureTimerFired_dropped (now tid : Z) (u : string) (s : State) :
  (currentSession s = None
   \/ exists c, currentSession s = Some c /\ tabId c <> tid) ->
  captureTimerFired now tid u s = (s, [Console LogSessionEndedBeforeScreenshot]).
Proof.
  intros [Hnone | (c & Hc & Hne)]; unfold captureTimerFired.
  - by rewrite Hnone.
  - rewrite Hc. by rewrite (proj2 (Z.eqb_neq _ _) Hne).
Qed.

(** C1. A session S1 is started on tab 1, and 500ms later a navigation on
    the same tab replaces it by S2, whose [sessionId] differs.  When S1's
    timer fires, 2000ms after S1 was started, [captureVisibleTab] is called
    all the same, for S1's URL and under S2's [sessionId]; and S2's own
    timer, 500ms later, is then refused by the capture gate. *)
Theorem C1_superseded_capture_fires_on_same_tab :
  let docs := "https://docs.example.com" in
  let social := "https://social.example.com" in
  let s0 := fst (handle 1000000 (OnMessage (StartTracking "finish report"))
                   initialState) in
  let r1 := handle 1000100 (OnUpdated 1 (Some "complete") (Some docs)) s0 in
  let r2 := handle 1000600 (OnUpdated 1 (Some "complete") (Some social)) (fst r1) in
  let fired1 := handle 1002100 (TimerFired (CaptureTimer 1 docs)) (fst r2) in
  let fired2 := handle 1002600 (TimerFired (CaptureTimer 1 social)) (fst fired1) in
  In (SetTimeout (CaptureTimer 1 docs) 2000) (snd r1)
  /\ currentSession (fst r1) =
       Some {| tabId := 1; url := docs; sessionId := 1000100 |}
  /\ In (Console (LogEndingSession 1 docs)) (snd r2)
  /\ currentSession (fst r2) =
       Some {| tabId := 1; url := social; sessionId := 1000600 |}
  /\ snd fired1 = [CaptureVisibleTab docs 1000600]
  /\ snd fired2 = [Console WarnRateLimit].
Proof.
  vm_compute. repeat split; auto.
Qed.

(** * Further properties of the script *)

(** ** Where each browser call comes from *)

(** A request to the scoring server is sent only by the capture callback,
    only when the capture succeeded, only while the session that asked for
    the capture is current; it carries the captured image and the goal set
    at that moment. *)
Theorem fetch_only_from_capture_of_current_session
    (now : Z) (ev : Event) (s : State) (shot goal : string) (sid : Z) :
  In (Fetch shot goal sid) (snd (handle now ev s)) ->
  (exists u, ev = CaptureDone u sid None shot)
  /\ goal = currentGoal s
  /\ exists c, currentSession s = Some c /\ sessionId c = sid.
Proof.
  step_cases.
  all: intros Hin; repeat (destruct Hin as [Hin | Hin]; try done).
  all: injection Hin as <- <- <-.
  all: repeat split; eauto.
  all: eexists; split; [done |].
  all: match goal with
       | H : negb (_ =? _) = false |- _ =>
           by apply negb_false_iff, Z.eqb_eq in H
       end.
Qed.

Lemma fetch_only_from_capture_witness :
  exists c,
    currentSession
      {| currentSession :=
           Some {| tabId := 1; url := "https://a.example.com"; sessionId := 5000 |};
         lastCaptureTime := 7000; isTracking := true;
         currentGoal := "finish report"; tabHistory := ∅ |} = Some c
    /\ sessionId c = 5000.
Proof.
  refine (proj2 (proj2 (fetch_only_from_capture_of_current_session 7100
            (CaptureDone "https://a.example.com" 5000 None "data:AAAA")
            _ "data:AAAA" "finish report" 5000 _))).
  vm_compute. tauto.
Defined.

(** The script injects the GIF, or sets a redirect or close timer, in one
    place only: the response callback, when the session of the request is
    still current and the parsed score is above 70; the calls are then those
    of [handleOffTask] for the current session's tab. *)
Theorem intervention_only_on_score_above_70
    (now : Z) (ev : Event) (s : State) (e : Effect) :
  isIntervention e = true ->
  In e (snd (handle now ev s)) ->
  exists c data,
    currentSession s = Some c
    /\ ev = FetchDone (sessionId c) (Resolved data)
    /\ exceeds (parseInt (toJsString data)) 70 = true
    /\ In e (snd (handleOffTask (tabId c) s)).
Proof.
  intros He.
  destruct ev as [m | tid status tabUrl | tid tabUrl | tid | tid tab
                  | lastError status | t | u sid lastError dataUrl | sid r].
  9: {
    destruct r as [data |]; cbn [handle fetchDone].
    - destruct (currentSession s) as [c |] eqn:Hc.
      + destruct (Z.eqb_spec (sessionId c) sid) as [<- | Hne].
        * destruct (truthy data).
          -- rewrite andThen_effects. cbn [emit snd fst app].
             destruct (exceeds (parseInt (toJsString data)) 70) eqn:Hex.
             ++ intros [<- | Hin]; [done |]. exists c, data. eauto.
             ++ intros [<- | []]. done.
          -- intros [<- | []]. done.
        * intros [<- | []]. done.
      + intros [<- | []]. done.
    - intros [<- | []]. done. }
  all: step_cases.
  all: intros Hin; repeat (destruct Hin as [Hin | Hin]; try done).
  all: by subst e.
Qed.

Lemma intervention_only_witness :
  let s := {| currentSession :=
                Some {| tabId := 1; url := "https://social.example.com";
                        sessionId := 5000 |};
              lastCaptureTime := 7000; isTracking := true;
              currentGoal := "finish report";
              tabHistory := {[ 1 := ["https://social.example.com"] ]} |} in
  exists c data,
    currentSession s = Some c
    /\ FetchDone 5000 (Resolved (JsString "85")) =
         FetchDone (sessionId c) (Resolved data)
    /\ exceeds (parseInt (toJsString data)) 70 = true
    /\ In (ExecuteScript 1 firstGifSrc) (snd (handleOffTask (tabId c) s)).
Proof.
  intros s.
  apply (intervention_only_on_score_above_70 7300
           (FetchDone 5000 (Resolved (JsString "85"))) s
           (ExecuteScript 1 firstGifSrc)).
  - reflexivity.
  - vm_compute. tauto.
Defined.

(** A tab is navigated only by the callback of a redirect timer and removed
    only by the callback of a close timer, for the tab and URL the timer was
    set with; no listener or other callback does either. *)
Theorem navigation_only_from_intervention_timer
    (now : Z) (ev : Event) (s : State) (tid : Z) :
  (forall u, In (TabsUpdate tid u) (snd (handle now ev s)) ->
             ev = TimerFired (RedirectTimer tid u))
  /\ (In (TabsRemove tid) (snd (handle now ev s)) ->
      ev = TimerFired (CloseTimer tid)).
Proof.
  split; [intros u |].
  all: destruct ev as [m | ? ? ? | ? ? | ? | ? ? | ? ? | t | ? ? ? ? | ? r];
    [| | | | | | destruct t | |].
  all: try (cbn; intros [[= <- <-] | []]; done).
  all: try (cbn; intros [[= <-] | []]; done).
  all: try (cbn; intros [[=] | []]; done).
  all: step_cases.
  all: intros Hin; repeat (destruct Hin as [Hin | Hin]; try done).
Qed.

Lemma navigation_only_witness :
  TimerFired (CloseTimer 3) = TimerFired (CloseTimer 3)
  /\ TimerFired (RedirectTimer 3 "https://work.example.com") =
       TimerFired (RedirectTimer 3 "https://work.example.com").
Proof.
  split.
  - apply (proj2 (navigation_only_from_intervention_timer 9000
                    (TimerFired (CloseTimer 3)) initialState 3)).
    vm_compute. tauto.
  - apply (proj1 (navigation_only_from_intervention_timer 9000
                    (TimerFired (RedirectTimer 3 "https://work.example.com"))
                    initialState 3)).
    vm_compute. tauto.
Defined.

(** ** Which turns change which variable *)

(** The capture callback, the response callback, the [flyOwl] callback, the
    redirect and close timers, the activation listener and the
    [getTrackingState] message change no variable, whatever they are given:
    failures and stale results leave nothing behind. *)
Theorem read_only_turns_keep_state (now : Z) (ev : Event) (s : State) :
  readOnly ev = true -> fst (handle now ev s) = s.
Proof.
  destruct ev as [[| | |] | | | | | | [| |] | ? ? lastError ? | ? [data |]];
    try discriminate; intros _; try reflexivity.
  - cbn [handle]. unfold onActivated. by destruct (isTracking s).
  - cbn [handle]. unfold flyOwlDone. by case_match.
  - cbn [handle]. unfold captureDone. destruct lastError; [done |].
    rewrite !andThen_state. cbn [emit fst].
    unfold analyzeScreenshotWithOpenAI. by case_match.
  - cbn [handle fetchDone].
    destruct (currentSession s) as [c |]; [| done].
    destruct (sessionId c =? _); [| done].
    destruct (truthy data); [| done].
    rewrite andThen_state. cbn [emit fst].
    destruct (exceeds _ _); [apply handleOffTask_state | done].
Qed.

Lemma read_only_turns_witness :
  let s := {| currentSession :=
                Some {| tabId := 1; url := "https://social.example.com";
                        sessionId := 5000 |};
              lastCaptureTime := 7000; isTracking := true;
              currentGoal := "finish report";
              tabHistory := {[ 1 := ["https://social.example.com"] ]} |} in
  fst (handle 7300 (FetchDone 5000 (Resolved (JsNumber 99))) s) = s.
Proof.
  intros s. apply read_only_turns_keep_state. reflexivity.
Defined.

Lemma step_keeps_tracking (now : Z) (ev : Event) (s : State) :
  isMessage ev = false ->
  isTracking (fst (handle now ev s)) = isTracking s
  /\ currentGoal (fst (handle now ev s)) = currentGoal s.
Proof. destruct ev; try discriminate; intros _; step_cases. Qed.

Lemma run_keeps_tracking (evs : list (Z * Event)) (s : State) :
  forallb (fun te => negb (isMessage (snd te))) evs = true ->
  isTracking (fst (run evs s)) = isTracking s
  /\ currentGoal (fst (run evs s)) = currentGoal s.
Proof.
  revert s. induction evs as [| [now ev] rest IH]; intros s Hall; [done |].
  cbn [forallb snd] in Hall. apply andb_true_iff in Hall as [Hev Hrest].
  apply negb_true_iff in Hev.
  rewrite run_cons. cbn [fst].
  destruct (IH (fst (handle now ev s)) Hrest) as [-> ->].
  by apply step_keeps_tracking.
Qed.

(** Only messages change [isTracking] and [currentGoal].  So, through any
    events and callbacks that are not messages, [getTrackingState] answers
    with the goal of the last [startTracking] and [true]; and after
    [stopTracking] it answers [false] with the goal still in place, since
    stopping does not clear it. *)
Theorem tracking_state_set_by_messages_only
    (s : State) (t0 t1 : Z) (goal : string) (evs : list (Z * Event)) :
  forallb (fun te => negb (isMessage (snd te))) evs = true ->
  snd (handle t1 (OnMessage GetTrackingState)
         (fst (run evs (fst (handle t0 (OnMessage (StartTracking goal)) s))))) =
    [SendResponse (RespState true goal)]
  /\ snd (handle t1 (OnMessage GetTrackingState)
            (fst (run evs (fst (handle t0 (OnMessage StopTracking) s))))) =
       [SendResponse (RespState false (currentGoal s))].
Proof.
  intros Hall. split.
  - destruct (run_keeps_tracking evs
                (fst (handle t0 (OnMessage (StartTracking goal)) s)) Hall)
      as [Htr Hgoal].
    set (s1 := fst (run evs _)) in *.
    cbn [handle onMessage snd]. by rewrite Htr, Hgoal.
  - destruct (run_keeps_tracking evs
                (fst (handle t0 (OnMessage StopTracking) s)) Hall)
      as [Htr Hgoal].
    set (s1 := fst (run evs _)) in *.
    cbn [handle onMessage snd]. rewrite Htr, Hgoal.
    unfold_handlers. cbn. by destruct (currentSession s).
Qed.

Lemma tracking_state_witness :
  let evs := [(2000, OnUpdated 1 (Some "complete") (Some "https://a.example.com"));
              (4000, TimerFired (CaptureTimer 1 "https://a.example.com"))] in
  snd (handle 5000 (OnMessage GetTrackingState)
         (fst (run evs (fst (handle 1000 (OnMessage (StartTracking "finish report"))
                               initialState))))) =
    [SendResponse (RespState true "finish report")].
Proof.
  intros evs.
  apply (tracking_state_set_by_messages_only initialState 1000 5000
           "finish report" evs).
  reflexivity.
Defined.

(** ** The capture gate over whole executions *)

(** [lastCaptureTime] never goes down, whatever the clock readings of the
    turns: it stays as it is through an execution that takes no screenshot
    and moves up by 1000ms or more through one that does. *)
Theorem lastCaptureTime_never_decreases (evs : list (Z * Event)) (s : State) :
  lastCaptureTime s <= lastCaptureTime (fst (run evs s))
  /\ (existsb isCapture (snd (run evs s)) = false ->
      lastCaptureTime (fst (run evs s)) = lastCaptureTime s)
  /\ (existsb isCapture (snd (run evs s)) = true ->
      lastCaptureTime s + 1000 <= lastCaptureTime (fst (run evs s))).
Proof.
  revert s. induction evs as [| [now ev] rest IH]; intros s.
  - cbn. repeat split; [lia | done].
  - rewrite run_cons. cbn [fst snd]. rewrite existsb_app.
    pose proof (step_capture now ev s) as Hstep.
    destruct (IH (fst (handle now ev s))) as (Hle & Hsame & Hmore).
    destruct (existsb isCapture (snd (handle now ev s))); cbn [orb].
    + destruct Hstep as [Hnow Hgap]. repeat split; [lia | done | lia].
    + rewrite Hstep in *. auto.
Qed.

Lemma lastCaptureTime_witness :
  let evs := [(1000000, OnMessage (StartTracking "finish report"));
              (1000100, OnUpdated 1 (Some "complete") (Some "https://a.example.com"));
              (1002100, TimerFired (CaptureTimer 1 "https://a.example.com"))] in
  lastCaptureTime initialState + 1000 <=
    lastCaptureTime (fst (run evs initialState)).
Proof.
  intros evs.
  apply (proj2 (proj2 (lastCaptureTime_never_decreases evs initialState))).
  vm_compute. reflexivity.
Defined.

(** ** The ledger and the session over whole executions *)

Lemma set_currentSession_same (s : State) :
  set_currentSession (currentSession s) s = s.
Proof. by destruct s. Qed.

Lemma startSession_state (now tid : Z) (u : option string) (s : State) :
  fst (startSession now tid u s) =
    set_currentSession
      match u with
      | Some v =>
          if ignoredUrl u then None
          else Some {| tabId := tid; url := v; sessionId := now |}
      | None => None
      end s.
Proof.
  unfold startSession, endSession. rewrite andThen_state.
  destruct (currentSession s) as [c |] eqn:Hc; cbn [fst].
  - destruct u as [v |]; [destruct (ignoredUrl (Some v)) |]; done.
  - destruct u as [v |]; [destruct (ignoredUrl (Some v)) |]; cbn [fst];
      try done; by rewrite <- Hc, set_currentSession_same.
Qed.

Lemma updateTabHistory_state (tid : Z) (u : option string) (s : State) :
  fst (updateTabHistory tid u s) =
    set_tabHistory (tabHistory (fst (updateTabHistory tid u s))) s.
Proof.
  destruct (updateTabHistory_cases tid u s) as [-> | [h ->]]; cbn [fst].
  - by rewrite set_tabHistory_same.
  - done.
Qed.

(** The three tab listeners share one body: a log line, the visit, the
    session start, the [flyOwl] message. *)
Lemma visit_turn (now tid : Z) (u : option string) (e1 e2 : Effect) (s : State) :
  let r := (emit e1 ;; updateTabHistory tid u ;;
            startSession now tid u ;; emit e2) s in
  tabHistory (fst r) = tabHistory (fst (updateTabHistory tid u s))
  /\ currentSession (fst r) =
       match u with
       | Some v =>
           if ignoredUrl u then None
           else Some {| tabId := tid; url := v; sessionId := now |}
       | None => None
       end.
Proof.
  cbn zeta. rewrite !andThen_state. cbn [emit fst].
  rewrite startSession_state. cbn [set_currentSession tabHistory currentSession].
  done.
Qed.

Lemma step_visit (now : Z) (ev : Event) (s : State) :
  match visitOf ev s with
  | Some (tid, u) =>
      tabHistory (fst (handle now ev s)) =
        tabHistory (fst (updateTabHistory tid u s))
      /\ currentSession (fst (handle now ev s)) =
           match u with
           | Some v =>
               if ignoredUrl u then None
               else Some {| tabId := tid; url := v; sessionId := now |}
           | None => None
           end
  | None =>
      tabHistory (fst (handle now ev s)) = tabHistory s
      /\ (currentSession (fst (handle now ev s)) = currentSession s
          \/ currentSession (fst (handle now ev s)) = None)
  end.
Proof.
  destruct ev as [m | tid status [v |] | tid tabUrl | tid | tid [tabUrl |]
                  | lastError status | t | u sid lastError dataUrl | sid r];
    cbn [visitOf handle].
  2: { unfold onUpdated.
       destruct (isTracking s && isComplete status && negb (String.eqb v ""));
         [apply visit_turn | auto]. }
  3: { unfold onCreated. destruct (isTracking s); [apply visit_turn | auto]. }
  4: { apply visit_turn. }
  all: step_cases; auto.
Qed.

Lemma updateTabHistory_clean (tid : Z) (u : option string) (s : State) :
  LedgerClean (tabHistory s) ->
  LedgerClean (tabHistory (fst (updateTabHistory tid u s))).
Proof.
  intros Hok.
  destruct (ignoredUrl u) eqn:Hign.
  { by rewrite updateTabHistory_ignored. }
  destruct u as [v |]; [| done].
  rewrite updateTabHistory_accepted by done. cbn zeta.
  case_decide as Hlast; [done |]. cbn [fst set_tabHistory tabHistory].
  intros tid' h'. rewrite lookup_insert.
  case_decide as Hk; [| apply Hok].
  intros [= <-].
  assert (Hold : Forall (fun w => ignoredUrl (Some w) = false)
                   (default [] (tabHistory s !! tid))
                 /\ NoAdjacentEqual (default [] (tabHistory s !! tid))).
  { destruct (tabHistory s !! tid) as [h |] eqn:Hlook; cbn [default].
    - destruct (Hok _ _ Hlook) as (_ & Hall & Hadj). done.
    - split; [constructor | apply NoAdjacentEqual_nil]. }
  destruct Hold as [Hall Hadj]. split; [| split].
  - by destruct (default [] (tabHistory s !! tid)).
  - apply Forall_app. split; [done |]. by repeat constructor.
  - by apply NoAdjacentEqual_snoc.
Qed.

Lemma updateTabHistory_last (tid : Z) (v : string) (s : State) :
  ignoredUrl (Some v) = false ->
  exists h,
    tabHistory (fst (updateTabHistory tid (Some v) s)) !! tid = Some h
    /\ last h = Some v.
Proof.
  intros Hacc. rewrite updateTabHistory_accepted by done. cbn zeta.
  case_decide as Hlast; cbn [fst set_tabHistory tabHistory].
  - destruct (tabHistory s !! tid) as [h |]; [eauto | done].
  - eexists. split; [apply lookup_insert_eq | apply last_snoc].
Qed.

Lemma updateTabHistory_grows
    (tid : Z) (u : option string) (s : State) (tid0 : Z) (h : list string) :
  tabHistory s !! tid0 = Some h ->
  exists h',
    tabHistory (fst (updateTabHistory tid u s)) !! tid0 = Some h'
    /\ h `prefix_of` h'.
Proof.
  intros Hlook.
  destruct (ignoredUrl u) eqn:Hign.
  { rewrite updateTabHistory_ignored by done. eauto. }
  destruct u as [v |]; [| done].
  rewrite updateTabHistory_accepted by done. cbn zeta.
  case_decide as Hlast; cbn [fst set_tabHistory tabHistory]; [eauto |].
  destruct (decide (tid = tid0)) as [-> | Hne].
  - rewrite lookup_insert_eq, Hlook. cbn [default].
    eexists. split; [done |]. by apply prefix_app_r.
  - rewrite lookup_insert_ne by done. eauto.
Qed.

Lemma step_ledger_session (now : Z) (ev : Event) (s : State) :
  LedgerClean (tabHistory s) -> SessionOnLedger s ->
  LedgerClean (tabHistory (fst (handle now ev s)))
  /\ SessionOnLedger (fst (handle now ev s)).
Proof.
  intros Hclean Hsess. pose proof (step_visit now ev s) as Hstep.
  destruct (visitOf ev s) as [[tid u] |].
  - destruct Hstep as [Hth Hcur]. split.
    + rewrite Hth. by apply updateTabHistory_clean.
    + intros c Hc. rewrite Hcur in Hc.
      destruct u as [v |]; [| done].
      destruct (ignoredUrl (Some v)) eqn:Hign; [done |].
      injection Hc as <-. cbn [url tabId]. split; [done |].
      rewrite Hth. by apply updateTabHistory_last.
  - destruct Hstep as [Hth Hcur]. split.
    + by rewrite Hth.
    + intros c Hc. rewrite Hth. apply Hsess.
      destruct Hcur as [Hcur | Hcur]; congruence.
Qed.

Lemma run_ledger_session (evs : list (Z * Event)) (s : State) :
  LedgerClean (tabHistory s) -> SessionOnLedger s ->
  LedgerClean (tabHistory (fst (run evs s)))
  /\ SessionOnLedger (fst (run evs s)).
Proof.
  revert s. induction evs as [| [now ev] rest IH]; intros s Hclean Hsess; [done |].
  rewrite run_cons. cbn [fst].
  destruct (step_ledger_session now ev s Hclean Hsess). by apply IH.
Qed.

Lemma initial_ledger_session :
  LedgerClean (tabHistory initialState) /\ SessionOnLedger initialState.
Proof.
  split.
  - intros tid h. cbn. by rewrite lookup_empty.
  - intros c. done.
Qed.

Lemma step_ledger_grows (now : Z) (ev : Event) (s : State)
    (tid : Z) (h : list string) :
  tabHistory s !! tid = Some h ->
  exists h',
    tabHistory (fst (handle now ev s)) !! tid = Some h' /\ h `prefix_of` h'.
Proof.
  intros Hlook. pose proof (step_visit now ev s) as Hstep.
  destruct (visitOf ev s) as [[tid' u] |]; destruct Hstep as [-> _].
  - by apply updateTabHistory_grows.
  - eauto.
Qed.

(** In every execution from start-up, whatever events and callbacks arrive
    in whatever order, each sequence stored in [tabHistory] is non-empty,
    holds no blank, [chrome://] or [about:] URL, and has no two neighbouring
    equal entries. *)
Theorem ledger_is_clean_in_every_execution
    (evs : list (Z * Event)) (tid : Z) (h : list string) :
  tabHistory (fst (run evs initialState)) !! tid = Some h ->
  h <> []
  /\ Forall (fun v => ignoredUrl (Some v) = false) h
  /\ NoAdjacentEqual h.
Proof.
  destruct initial_ledger_session as [Hclean Hsess].
  destruct (run_ledger_session evs initialState Hclean Hsess) as [Hrun _].
  apply Hrun.
Qed.

Lemma ledger_is_clean_witness :
  let evs :=
    [(1000, OnMessage (StartTracking "finish report"));
     (2000, OnCreated 1 None);
     (3000, OnUpdated 1 (Some "complete") (Some "https://work.example.com"));
     (4000, OnUpdated 1 (Some "complete") (Some "https://work.example.com"));
     (5000, TabsGetDone 1 (Some (Some "chrome://settings")))] in
  ["https://work.example.com"] <> []
  /\ Forall (fun v => ignoredUrl (Some v) = false) ["https://work.example.com"]
  /\ NoAdjacentEqual ["https://work.example.com"].
Proof.
  intros evs. apply (ledger_is_clean_in_every_execution evs 1).
  vm_compute. reflexivity.
Defined.

(** [tabHistory] only grows: through any execution, from any state, a tab
    that has a recorded sequence keeps one, and the earlier sequence is a
    prefix of the later one.  Nothing is ever removed or rewritten, not even
    by [stopTracking]. *)
Theorem ledger_is_append_only
    (evs : list (Z * Event)) (s : State) (tid : Z) (h : list string) :
  tabHistory s !! tid = Some h ->
  exists h',
    tabHistory (fst (run evs s)) !! tid = Some h' /\ h `prefix_of` h'.
Proof.
  revert s h. induction evs as [| [now ev] rest IH]; intros s h Hlook.
  - eauto.
  - rewrite run_cons. cbn [fst].
    destruct (step_ledger_grows now ev s tid h Hlook) as (h1 & Hlook1 & Hpre1).
    destruct (IH _ _ Hlook1) as (h2 & Hlook2 & Hpre2).
    exists h2. split; [done |]. by etrans.
Qed.

Lemma ledger_is_append_only_witness :
  let s := fst (run [(1000, OnMessage (StartTracking "finish report"));
                     (2000, OnUpdated 1 (Some "complete")
                              (Some "https://work.example.com"))]
                  initialState) in
  let evs := [(3000, OnUpdated 1 (Some "complete")
                       (Some "https://social.example.com"));
              (4000, OnMessage StopTracking)] in
  exists h',
    tabHistory (fst (run evs s)) !! 1 = Some h'
    /\ ["https://work.example.com"] `prefix_of` h'.
Proof.
  intros s evs. apply (ledger_is_append_only evs s 1).
  vm_compute. reflexivity.
Defined.

(** In every execution from start-up, the current session's URL is neither
    blank nor restricted, and it is the last entry recorded for the
    session's tab. *)
Theorem session_sits_on_last_entry (evs : list (Z * Event)) (c : Session) :
  currentSession (fst (run evs initialState)) = Some c ->
  ignoredUrl (Some (url c)) = false
  /\ exists h,
       tabHistory (fst (run evs initialState)) !! tabId c = Some h
       /\ last h = Some (url c).
Proof.
  destruct initial_ledger_session as [Hclean Hsess].
  destruct (run_ledger_session evs initialState Hclean Hsess) as [_ Hrun].
  apply Hrun.
Qed.

Lemma session_sits_on_last_entry_witness :
  let evs :=
    [(1000, OnMessage (StartTracking "finish report"));
     (2000, OnUpdated 1 (Some "complete") (Some "https://work.example.com"));
     (3000, OnUpdated 2 (Some "complete") (Some "https://social.example.com"))] in
  exists h,
    tabHistory (fst (run evs initialState)) !! 2 = Some h
    /\ last h = Some "https://social.example.com".
Proof.
  intros evs.
  apply (session_sits_on_last_entry evs
           {| tabId := 2; url := "https://social.example.com";
              sessionId := 3000 |}).
  vm_compute. reflexivity.
Defined.

(** In every execution from start-up, an intervention on the current
    session's tab either redirects to a URL different from the one the
    session is on, or, exactly when that URL is the tab's only recorded
    entry, closes the tab. *)
Theorem intervention_leaves_the_current_page
    (evs : list (Z * Event)) (c : Session) :
  let s := fst (run evs initialState) in
  currentSession s = Some c ->
  (exists previousUrl,
     previousUrl <> url c
     /\ snd (handleOffTask (tabId c) s) =
          [Console (LogOffTask (tabId c));
           Console (LogRedirecting previousUrl);
           ExecuteScript (tabId c) firstGifSrc;
           SetTimeout (RedirectTimer (tabId c) previousUrl) 2000])
  \/ (tabHistory s !! tabId c = Some [url c]
      /\ snd (handleOffTask (tabId c) s) =
           [Console (LogOffTask (tabId c));
            Console (LogClosingTab (tabId c));
            ExecuteScript (tabId c) firstGifSrc;
            SetTimeout (CloseTimer (tabId c)) 2000]).
Proof.
  intros s Hc.
  destruct initial_ledger_session as [Hclean Hsess].
  destruct (run_ledger_session evs initialState Hclean Hsess) as [Hled Hrun].
  fold s in Hled, Hrun.
  destruct (Hrun c Hc) as (_ & h & Hlook & Hlast).
  destruct (Hled _ _ Hlook) as (Hne & _ & Hadj).
  unfold handleOffTask. rewrite andThen_effects. cbn [emit fst snd app].
  rewrite Hlook.
  destruct (1 <? length h)%nat eqn:Hlen.
  - left. apply Nat.ltb_lt in Hlen.
    destruct (lookup_lt_is_Some_2 h (length h - 2)%nat) as [p Hp]; [lia |].
    exists p. rewrite Hp. split; [| done].
    rewrite last_lookup in Hlast.
    apply (Hadj (length h - 2)%nat); [done |].
    by replace (S (length h - 2)) with (pred (length h)) by lia.
  - right. apply Nat.ltb_ge in Hlen. split; [| done].
    destruct h as [| a [| b h]]; [done | | simpl in Hlen; lia].
    by injection Hlast as ->.
Qed.

Lemma intervention_leaves_witness :
  let evs :=
    [(1000, OnMessage (StartTracking "finish report"));
     (2000, OnUpdated 1 (Some "complete") (Some "https://work.example.com"));
     (3000, OnUpdated 1 (Some "complete") (Some "https://social.example.com"))] in
  let s := fst (run evs initialState) in
  let c := {| tabId := 1; url := "https://social.example.com";
              sessionId := 3000 |} in
  (exists previousUrl,
     previousUrl <> url c
     /\ snd (handleOffTask (tabId c) s) =
          [Console (LogOffTask (tabId c));
           Console (LogRedirecting previousUrl);
           ExecuteScript (tabId c) firstGifSrc;
           SetTimeout (RedirectTimer (tabId c) previousUrl) 2000])
  \/ (tabHistory s !! tabId c = Some [url c]
      /\ snd (handleOffTask (tabId c) s) =
           [Console (LogOffTask (tabId c));
            Console (LogClosingTab (tabId c));
            ExecuteScript (tabId c) firstGifSrc;
            SetTimeout (CloseTimer (tabId c)) 2000]).
Proof.
  intros evs s c. apply (intervention_leaves_the_current_page evs c).
  vm_compute. reflexivity.
Defined.

(** ** Reading the score *)

















(** ** Tracking and sessions *)

Lemma step_session_needs_tracking (now : Z) (ev : Event) (s : State) :
  isTabsGetDone ev = false ->
  (isTracking s = false -> currentSession s = None) ->
  isTracking (fst (handle now ev s)) = false ->
  currentSession (fst (handle now ev s)) = None.
Proof.
  destruct ev; try discriminate; intros _.
  all: step_cases; auto.
  all: intros; try congruence; auto.
  all: try match goal with
       | Hoff : isTracking ?s = false, Hon : isTracking ?s && _ && _ = true |- _ =>
           rewrite Hoff in Hon; discriminate
       end.
  all: match goal with
       | Hinv : ?P -> Some _ = None, Hoff : ?P |- _ => discriminate (Hinv Hoff)
       end.
Qed.

(** In an execution from start-up in which no [chrome.tabs.get] callback
    arrives, a session is current only while tracking is on: whenever
    [isTracking] is false, [currentSession] is unset. *)
Theorem no_session_while_not_tracking (evs : list (Z * Event)) :
  forallb (fun te => negb (isTabsGetDone (snd te))) evs = true ->
  isTracking (fst (run evs initialState)) = false ->
  currentSession (fst (run evs initialState)) = None.
Proof.
  assert (Hgen : forall s,
            forallb (fun te => negb (isTabsGetDone (snd te))) evs = true ->
            (isTracking s = false -> currentSession s = None) ->
            isTracking (fst (run evs s)) = false ->
            currentSession (fst (run evs s)) = None).
  { induction evs as [| [now ev] rest IH]; intros s Hall Hinv; [done |].
    cbn [forallb snd] in Hall. apply andb_true_iff in Hall as [Hev Hrest].
    apply negb_true_iff in Hev. rewrite run_cons. cbn [fst].
    apply IH; [done |]. by apply step_session_needs_tracking. }
  intros Hall. by apply Hgen.
Qed.

Lemma no_session_while_not_tracking_witness :
  let evs :=
    [(1000, OnMessage (StartTracking "finish report"));
     (2000, OnUpdated 1 (Some "complete") (Some "https://a.example.com"));
     (3000, OnMessage StopTracking);
     (4000, OnUpdated 1 (Some "complete") (Some "https://b.example.com"))] in
  currentSession (fst (run evs initialState)) = None.
Proof.
  intros evs. apply (no_session_while_not_tracking evs); reflexivity.
Defined.

Lemma stop_clears (now : Z) (s : State) :
  currentSession (fst (handle now (OnMessage StopTracking) s)) = None
  /\ isTracking (fst (handle now (OnMessage StopTracking) s)) = false.
Proof. unfold_handlers. cbn. by destruct (currentSession s) eqn:Hc. Qed.

(** The callback of [chrome.tabs.get] does not look at [isTracking].  When
    a tab is activated while tracking is on and [stopTracking] is processed
    before the callback arrives, the callback still starts a session for
    the tab and sets its capture timer, with tracking off. *)
Theorem late_tabs_get_starts_session_after_stop
    (s : State) (t0 t1 t2 tid : Z) (v : string) :
  isTracking s = true -> ignoredUrl (Some v) = false ->
  let r0 := handle t0 (OnActivated tid) s in
  let r1 := handle t1 (OnMessage StopTracking) (fst r0) in
  let r2 := handle t2 (TabsGetDone tid (Some (Some v))) (fst r1) in
  snd r0 = [TabsGet tid]
  /\ currentSession (fst r1) = None
  /\ isTracking (fst r2) = false
  /\ currentSession (fst r2) =
       Some {| tabId := tid; url := v; sessionId := t2 |}
  /\ In (SetTimeout (CaptureTimer tid v) 2000) (snd r2).
Proof.
  intros Htr Hacc. cbn zeta.
  assert (H0 : handle t0 (OnActivated tid) s = (s, [TabsGet tid])).
  { cbn [handle]. unfold onActivated. by rewrite Htr. }
  rewrite H0. cbn [fst snd].
  split; [done |].
  pose proof (step_visit t2 (TabsGetDone tid (Some (Some v)))
                (fst (handle t1 (OnMessage StopTracking) s))) as Hv.
  cbn [visitOf] in Hv. rewrite Hacc in Hv. destruct Hv as [_ Hcur].
  split; [| split; [| split; [exact Hcur |]]].
  - apply stop_clears.
  - destruct (step_keeps_tracking t2 (TabsGetDone tid (Some (Some v)))
                (fst (handle t1 (OnMessage StopTracking) s)) eq_refl) as [-> _].
    apply stop_clears.
  - cbn [handle tabsGetDone]. rewrite !andThen_effects.
    apply in_or_app. right. apply in_or_app. right.
    apply in_or_app. left.
    unfold startSession. rewrite andThen_effects. apply in_or_app. right.
    rewrite Hacc. cbn. auto.
Qed.

Lemma late_tabs_get_witness :
  let s := fst (handle 1000 (OnMessage (StartTracking "finish report"))
                  initialState) in
  let r := handle 4000 (TabsGetDone 7 (Some (Some "https://a.example.com")))
             (fst (handle 3000 (OnMessage StopTracking)
                     (fst (handle 2000 (OnActivated 7) s)))) in
  isTracking (fst r) = false
  /\ currentSession (fst r) =
       Some {| tabId := 7; url := "https://a.example.com"; sessionId := 4000 |}.
Proof.
  intros s r.
  destruct (late_tabs_get_starts_session_after_stop s 2000 3000 4000 7
              "https://a.example.com" eq_refl eq_refl)
    as (_ & _ & Hoff & Hcur & _).
  split; [exact Hoff | exact Hcur].
Defined.

Lemma startSession_ignored
    (now tid : Z) (u : option string) (s : State) :
  ignoredUrl u = true ->
  startSession now tid u s =
    (set_currentSession None s,
     snd (endSession s) ++ [Console (LogSkippingSession u)]).
Proof.
  intros Hign. unfold startSession, endSession, andThen.
  destruct (currentSession s) as [c |] eqn:Hc; cbn [fst snd].
  - destruct u as [v |]; [rewrite Hign |]; done.
  - rewrite <- Hc at 1. rewrite set_currentSession_same.
    destruct u as [v |]; [rewrite Hign |]; done.
Qed.

(** [startSession] called with a missing, empty, [chrome://] or [about:]
    URL still ends the current session, starts none and sets no timer: a
    navigation to a restricted page leaves the script without a session. *)
Theorem startSession_rejects_ignored_url
    (now tid : Z) (u : option string) (s : State) :
  ignoredUrl u = true ->
  startSession now tid u s =
    (set_currentSession None s,
     snd (endSession s) ++ [Console (LogSkippingSession u)]).
Proof. apply startSession_ignored. Qed.

Lemma startSession_rejects_witness :
  let s := {| currentSession :=
                Some {| tabId := 1; url := "https://a.example.com";
                        sessionId := 5000 |};
              lastCaptureTime := 0; isTracking := true;
              currentGoal := "finish report"; tabHistory := ∅ |} in
  startSession 6000 1 (Some "chrome://settings") s =
    (set_currentSession None s,
     [Console (LogEndingSession 1 "https://a.example.com");
      Console (LogSkippingSession (Some "chrome://settings"))]).
Proof.
  intros s.
  apply (startSession_rejects_ignored_url 6000 1 (Some "chrome://settings") s).
  reflexivity.
Defined.

Lemma orAboutBlank_ignored (tabUrl : option string) :
  ignoredUrl tabUrl = true -> ignoredUrl (Some (orAboutBlank tabUrl)) = true.
Proof.
  destruct tabUrl as [v |]; [| done]. cbn [orAboutBlank].
  destruct (String.eqb v "") eqn:Hv; [done | by intros].
Qed.

(** While tracking is on, a tab created with no URL, an empty URL or a
    restricted one (a blank new tab) records nothing in the ledger, ends the
    current session, whichever tab it is on, starts none, and still sends
    the [flyOwl] message to the new tab. *)
Theorem restricted_new_tab_ends_session
    (now tid : Z) (tabUrl : option string) (s : State) :
  isTracking s = true -> ignoredUrl tabUrl = true ->
  handle now (OnCreated tid tabUrl) s =
    (set_currentSession None s,
     Console (LogNewTab tid (orAboutBlank tabUrl))
       :: snd (endSession s)
       ++ [Console (LogSkippingSession (Some (orAboutBlank tabUrl)));
           SendFlyOwl tid]).
Proof.
  intros Htr Hign. apply orAboutBlank_ignored in Hign.
  cbn [handle]. unfold onCreated. rewrite Htr.
  unfold andThen at 1 2 3. cbn [emit fst snd app].
  rewrite updateTabHistory_ignored by done. cbn [fst snd app].
  rewrite startSession_ignored by done. cbn [fst snd].
  by rewrite <- app_assoc.
Qed.

Lemma restricted_new_tab_witness :
  let s := {| currentSession :=
                Some {| tabId := 1; url := "https://a.example.com";
                        sessionId := 5000 |};
              lastCaptureTime := 0; isTracking := true;
              currentGoal := "finish report";
              tabHistory := {[ 1 := ["https://a.example.com"] ]} |} in
  handle 6000 (OnCreated 2 None) s =
    (set_currentSession None s,
     [Console (LogNewTab 2 "about:blank");
      Console (LogEndingSession 1 "https://a.example.com");
      Console (LogSkippingSession (Some "about:blank"));
      SendFlyOwl 2]).
Proof.
  intros s.
  apply (restricted_new_tab_ends_session 6000 2 None s); reflexivity.
Defined.

(** A capture timer is set only in a turn that starts a session, always
    with a delay of 2000ms, and for the tab and URL of the session that is
    current when the turn ends, whose [sessionId] is the turn's clock
    reading. *)
Theorem capture_timer_belongs_to_new_session
    (now : Z) (ev : Event) (s : State) (tid : Z) (v : string) (delay : Z) :
  In (SetTimeout (CaptureTimer tid v) delay) (snd (handle now ev s)) ->
  delay = 2000
  /\ currentSession (fst (handle now ev s)) =
       Some {| tabId := tid; url := v; sessionId := now |}.
Proof.
  step_cases.
  all: intros Hin; repeat (destruct Hin as [Hin | Hin]; try done).
  all: by injection Hin as <- <- <-.
Qed.

Lemma capture_timer_witness :
  let s := fst (handle 1000 (OnMessage (StartTracking "finish report"))
                  initialState) in
  currentSession
    (fst (handle 2000 (OnUpdated 1 (Some "complete")
                         (Some "https://a.example.com")) s)) =
    Some {| tabId := 1; url := "https://a.example.com"; sessionId := 2000 |}.
Proof.
  intros s.
  refine (proj2 (capture_timer_belongs_to_new_session 2000
            (OnUpdated 1 (Some "complete") (Some "https://a.example.com"))
            s 1 "https://a.example.com" 2000 _)).
  vm_compute. tauto.
Defined.

(** ** From a navigation to the intervention *)



(** ** One visit, read back *)

(** Recording a URL that is not ignored leaves that URL as the tab's last
    entry: the tab's sequence is the old one when it already ended with the
    URL, and the old one with the URL appended otherwise (a tab without a
    sequence counting as empty).  Every other tab's sequence and every other
    variable stay as they were. *)
Theorem updateTabHistory_records_visit
    (tid : Z) (v : string) (s : State) :
  ignoredUrl (Some v) = false ->
  let old := default [] (tabHistory s !! tid) in
  let s' := fst (updateTabHistory tid (Some v) s) in
  tabHistory s' !! tid =
    Some (if decide (last old = Some v) then old else old ++ [v])
  /\ (forall tid', tid' <> tid -> tabHistory s' !! tid' = tabHistory s !! tid')
  /\ s' = set_tabHistory (tabHistory s') s.
Proof.
  intros Hacc old s'. split; [| split].
  - subst s'. rewrite updateTabHistory_accepted by done. cbn zeta. fold old.
    case_decide as Hlast; cbn [fst set_tabHistory tabHistory].
    + subst old. destruct (tabHistory s !! tid) as [h |]; [done |].
      discriminate.
    + apply lookup_insert_eq.
  - intros tid' Hne. subst s'. rewrite updateTabHistory_accepted by done.
    cbn zeta. case_decide; cbn [fst set_tabHistory tabHistory]; [done |].
    by rewrite lookup_insert_ne.
  - apply updateTabHistory_state.
Qed.

Lemma updateTabHistory_records_witness :
  let s := {| currentSession := None; lastCaptureTime := 0;
              isTracking := true; currentGoal := "finish report";
              tabHistory := {[ 1 := ["https://a.example.com"] ]} |} in
  tabHistory (fst (updateTabHistory 1 (Some "https://b.example.com") s)) !! 1 =
    Some ["https://a.example.com"; "https://b.example.com"]
  /\ tabHistory (fst (updateTabHistory 2 (Some "https://b.example.com") s)) !! 2 =
       Some ["https://b.example.com"].
Proof.
  intros s. split.
  - apply (updateTabHistory_records_visit 1 "https://b.example.com" s eq_refl).
  - apply (updateTabHistory_records_visit 2 "https://b.example.com" s eq_refl).
Defined.

(** ** Two navigations on one tab *)

Lemma step_keeps_gate (now : Z) (ev : Event) (s : State) :
  match ev with TimerFired (CaptureTimer _ _) => False | _ => True end ->
  lastCaptureTime (fst (handle now ev s)) = lastCaptureTime s.
Proof.
  pose proof (step_capture now ev s) as Hstep.
  destruct (existsb isCapture (snd (handle now ev s))) eqn:Hcap; [| done].
  intros Hev. exfalso. revert Hcap.
  destruct ev as [| | | | | | [| |] | |]; try done.
  all: step_cases.
Qed.

(** For any state with tracking on: when a second page completes loading on
    a tab before the timer of the first has fired, the first timer, on
    firing, still takes the screenshot, labelled with the first page's URL
    and the second session's [sessionId]; and if the second timer fires
    less than 1000ms after it, the second session's own capture is refused
    by the gate. *)
Theorem superseded_timer_takes_the_capture
    (s : State) (t0 t1 f0 f1 tid : Z) (v0 v1 : string) :
  isTracking s = true ->
  ignoredUrl (Some v0) = false ->
  ignoredUrl (Some v1) = false ->
  1000 <= f0 - lastCaptureTime s ->
  f1 - f0 < 1000 ->
  let r0 := handle t0 (OnUpdated tid (Some "complete") (Some v0)) s in
  let r1 := handle t1 (OnUpdated tid (Some "complete") (Some v1)) (fst r0) in
  let g0 := handle f0 (TimerFired (CaptureTimer tid v0)) (fst r1) in
  let g1 := handle f1 (TimerFired (CaptureTimer tid v1)) (fst g0) in
  snd g0 = [CaptureVisibleTab v0 t1]
  /\ snd g1 = [Console WarnRateLimit].
Proof.
  intros Htr Hv0 Hv1 Hgate Hclose. cbn zeta.
  set (s0 := fst (handle t0 (OnUpdated tid (Some "complete") (Some v0)) s)).
  set (s1 := fst (handle t1 (OnUpdated tid (Some "complete") (Some v1)) s0)).
  assert (Htr0 : isTracking s0 = true).
  { subst s0. by destruct (step_keeps_tracking t0
      (OnUpdated tid (Some "complete") (Some v0)) s eq_refl) as [-> _]. }
  assert (Hne1 : String.eqb v1 "" = false).
  { destruct v1; [discriminate | done]. }
  assert (Hcur : currentSession s1 =
                   Some {| tabId := tid; url := v1; sessionId := t1 |}).
  { pose proof (step_visit t1 (OnUpdated tid (Some "complete") (Some v1)) s0) as Hv.
    cbn [visitOf] in Hv. rewrite Htr0, Hne1 in Hv.
    change (isComplete (Some "complete")) with true in Hv. cbn [andb negb] in Hv.
    rewrite Hv1 in Hv. apply Hv. }
  assert (Hlast : lastCaptureTime s1 = lastCaptureTime s).
  { subst s1 s0. by rewrite !step_keeps_gate. }
  assert (Hg0 : handle f0 (TimerFired (CaptureTimer tid v0)) s1 =
                  (set_lastCaptureTime f0 s1, [CaptureVisibleTab v0 t1])).
  { cbn [handle timerFired]. unfold captureTimerFired, takeScreenshot.
    rewrite Hcur. cbn [tabId sessionId]. rewrite Z.eqb_refl, Hlast.
    by rewrite (proj2 (Z.ltb_ge _ _) Hgate). }
  rewrite Hg0. cbn [fst snd]. split; [done |].
  cbn [handle timerFired]. unfold captureTimerFired, takeScreenshot.
  cbn [currentSession set_lastCaptureTime lastCaptureTime].
  rewrite Hcur. cbn [tabId sessionId]. rewrite Z.eqb_refl.
  by rewrite (proj2 (Z.ltb_lt _ _) Hclose).
Qed.

Lemma superseded_timer_witness :
  let s := fst (handle 1000000 (OnMessage (StartTracking "finish report"))
                  initialState) in
  let r0 := handle 1000100 (OnUpdated 4 (Some "complete")
                              (Some "https://a.example.com")) s in
  let r1 := handle 1000300 (OnUpdated 4 (Some "complete")
                              (Some "https://b.example.com")) (fst r0) in
  let g0 := handle 1002100 (TimerFired (CaptureTimer 4 "https://a.example.com"))
              (fst r1) in
  let g1 := handle 1002300 (TimerFired (CaptureTimer 4 "https://b.example.com"))
              (fst g0) in
  snd g0 = [CaptureVisibleTab "https://a.example.com" 1000300]
  /\ snd g1 = [Console WarnRateLimit].
Proof.
  intros s r0 r1 g0 g1.
  apply (superseded_timer_takes_the_capture s 1000100 1000300 1002100 1002300 4
           "https://a.example.com" "https://b.example.com").
  - reflexivity.
  - reflexivity.
  - reflexivity.
  - vm_compute. discriminate.
  - lia.
Defined.
